(** * mesonbuild/cmake/executor.py : discovery, caching and invocation of CMake

    A shallow embedding of [CMakeExecutor] (mesonbuild/cmake/executor.py).

    The class keeps three process-wide class attributes
    ([class_cmakebin], [class_cmakevers], [class_cmake_cache]); every method
    reads and writes them, touches the file system, launches processes and
    logs.  All of that is threaded explicitly through a [World] value by a
    state-and-exception monad [M].  Every externally visible action is also
    appended to [trace], so that statements such as "the process is launched
    once" or "no file is written" are statements about the events a call adds.

    Collaborators that live outside this file in the repository
    ([ExternalProgram], [Popen_safe], [mesonlib.is_windows], the module path
    and the pointer width used in the stub files) are the fields of the
    [Host] interface.  [mlog.debug] lines are left out (they change nothing a
    caller can see); [mlog.log] and [mlog.warning] are events. *)

From Stdlib Require Import Ascii String ZArith Lia.
From stdpp Require Import base gmap strings list pretty.

Local Open Scope string_scope.
Local Open Scope list_scope.
Local Open Scope Z_scope.

(* ===================================================================== *)
(** ** Text helpers: the pieces of Python's [str] and [re] the file uses *)
(* ===================================================================== *)

Module PyStr.

Definition nl : ascii := "010"%char.
Definition dquote : ascii := "034"%char.

(** [str.isspace] on one character, for code points below 256; the same
    class is what [\s] matches in a [str] pattern. *)
Definition isspace (c : ascii) : bool :=
  let n := nat_of_ascii c in
  ((9 <=? n) && (n <=? 13) || (28 <=? n) && (n <=? 32)
   || (n =? 133) || (n =? 160))%nat.

Fixpoint lstrip_l (l : list ascii) : list ascii :=
  match l with
  | c :: l' => if isspace c then lstrip_l l' else l
  | [] => []
  end.

Definition rstrip_l (l : list ascii) : list ascii :=
  rev (lstrip_l (rev l)).

(** [s.strip()] *)
Definition strip (s : string) : string :=
  string_of_list_ascii (rstrip_l (lstrip_l (list_ascii_of_string s))).

(** [s.split('\n')[0]] : everything before the first newline. *)
Fixpoint first_line (s : string) : string :=
  match s with
  | EmptyString => EmptyString
  | String c s' => if Ascii.eqb c nl then EmptyString else String c (first_line s')
  end.

Fixpoint strip_prefix (p l : list ascii) : option (list ascii) :=
  match p, l with
  | [], _ => Some l
  | a :: p', b :: l' => if Ascii.eqb a b then strip_prefix p' l' else None
  | _ :: _, [] => None
  end.

(** Length of the match of [\s*LABEL\s*] anchored at the head of [l], when
    there is one.  Both [\s*] are greedy and the label begins with a
    character that is not white space, so the leading run is the maximal
    one and no backtracking changes the outcome. *)
Definition match_len (label l : list ascii) : option nat :=
  match strip_prefix label (lstrip_l l) with
  | Some rest => Some (length l - length (lstrip_l rest))%nat
  | None => None
  end.

(** [re.sub] of the pattern above by the empty string: scan from the left,
    drop every (leftmost, non-overlapping) match, copy everything else.
    [skip] counts the characters of the current match still to drop. *)
Fixpoint re_sub_aux (label : list ascii) (skip : nat) (l : list ascii) : list ascii :=
  match l with
  | [] => []
  | c :: l' =>
      match skip with
      | S k => re_sub_aux label k l'
      | O =>
          match match_len label l with
          | Some (S k) => re_sub_aux label k l'
          | _ => c :: re_sub_aux label 0 l'
          end
      end
  end.

Definition re_sub_label (label s : string) : string :=
  string_of_list_ascii
    (re_sub_aux (list_ascii_of_string label) 0 (list_ascii_of_string s)).

(** [' '.join(l)] *)
Fixpoint join_space (l : list string) : string :=
  match l with
  | [] => EmptyString
  | [x] => x
  | x :: rest => x +:+ " " +:+ join_space rest
  end.

End PyStr.

(* ===================================================================== *)
(** ** Version comparison *)
(* ===================================================================== *)

Module Version.

Definition digit_of (c : ascii) : option N :=
  let n := N_of_ascii c in
  if ((48 <=? n) && (n <=? 57))%N then Some (n - 48)%N else None.

(** Value of the leading decimal digits of one component. *)
Fixpoint component_aux (acc : N) (l : list ascii) : N :=
  match l with
  | c :: l' =>
      match digit_of c with
      | Some d => component_aux (10 * acc + d)%N l'
      | None => acc
      end
  | [] => acc
  end.

(** Split at the dots. *)
Fixpoint split_dots (cur : list ascii) (l : list ascii) : list (list ascii) :=
  match l with
  | [] => [rev cur]
  | c :: l' =>
      if Ascii.eqb c "."%char then rev cur :: split_dots [] l'
      else split_dots (c :: cur) l'
  end.

Definition components (v : string) : list N :=
  map (component_aux 0%N) (split_dots [] (list_ascii_of_string v)).

(** Component-wise order; a proper prefix is smaller. *)
Fixpoint le_components (a b : list N) : bool :=
  match a, b with
  | [], _ => true
  | _ :: _, [] => false
  | x :: a', y :: b' =>
      if (x <? y)%N then true
      else if (y <? x)%N then false
      else le_components a' b'
  end.

(** Modelled from the spec: [mesonlib.version_compare] is not part of the
    sources at hand.  The specification describes the comparison the
    executor relies on as "the candidate's VersionString must be >= the
    minimum under component-wise version comparison" ("component-wise, not
    lexical"): [version_compare v minimum] holds when the dotted numeric
    components of [v] are at least those of [minimum]. *)
Definition version_compare (v minimum : string) : bool :=
  le_components (components minimum) (components v).

End Version.

(* ===================================================================== *)
(** ** Data model *)
(* ===================================================================== *)

(** [mesonlib.MachineChoice] *)
Inductive MachineChoice : Type := BUILD | HOST.

#[global] Instance MachineChoice_eq_dec : EqDecision MachineChoice.
Proof. solve_decision. Defined.

(** [mesonlib.PerMachine]: one slot per machine, read and written by index. *)
Record PerMachine (A : Type) : Type := mkPerMachine { pm_build : A; pm_host : A }.
Arguments mkPerMachine {A} _ _.
Arguments pm_build {A} _.
Arguments pm_host {A} _.

Definition per_get {A} (pm : PerMachine A) (m : MachineChoice) : A :=
  match m with BUILD => pm_build pm | HOST => pm_host pm end.

Definition per_set {A} (pm : PerMachine A) (m : MachineChoice) (a : A) : PerMachine A :=
  match m with
  | BUILD => mkPerMachine a (pm_host pm)
  | HOST => mkPerMachine (pm_build pm) a
  end.

(** The external-program object: what the executor reads from it, and the
    identity of the Python object (two objects built from the same path are
    still two objects, and the invocation cache is keyed by the object). *)
Module ExternalProgram.
Record t : Type := mk {
  obj_id : nat;
  name : string;
  command : list string;
  path : string;
  is_found : bool
}.
Definition found (p : t) : bool := is_found p.
Definition get_command (p : t) : list string := command p.
Definition get_path (p : t) : string := path p.
Definition with_id (n : nat) (p : t) : t :=
  mk n (name p) (command p) (path p) (is_found p).
End ExternalProgram.

#[global] Instance ExternalProgram_eq_dec : EqDecision ExternalProgram.t.
Proof. solve_decision. Defined.

(** What [class_cmakebin[m]] and [self.cmakebin] can hold: [None], [False]
    or a program object. *)
Inductive cmakebin_value : Type :=
| BinNone
| BinFalse
| BinProg (p : ExternalProgram.t).

#[global] Instance cmakebin_value_eq_dec : EqDecision cmakebin_value.
Proof. solve_decision. Defined.

(** A [dict] of environment variables, as its items in insertion order. *)
Definition EnvDict : Type := list (string * string).

(** First component of an invocation key: [self.cmakebin] compared and
    hashed as a Python object, that is by identity. *)
Inductive bin_ident : Type := IdNone | IdFalse | IdObj (n : nat).

#[global] Instance bin_ident_eq_dec : EqDecision bin_ident.
Proof. solve_decision. Defined.

#[global] Instance bin_ident_countable : Countable bin_ident.
Proof.
  refine (inj_countable'
            (fun i => match i with
                      | IdNone => inl false | IdFalse => inl true | IdObj n => inr n
                      end)
            (fun s => match s with
                      | inl false => IdNone | inl true => IdFalse | inr n => IdObj n
                      end) _).
  intros []; reflexivity.
Defined.

Definition ident_of (b : cmakebin_value) : bin_ident :=
  match b with
  | BinNone => IdNone
  | BinFalse => IdFalse
  | BinProg p => IdObj (ExternalProgram.obj_id p)
  end.

(** The tuple [(self.cmakebin, targs, build_dir, fenv)]. *)
Definition CacheKey : Type :=
  bin_ident * list string * string * option (gset (string * string)).

(** [(rc, out, err)] *)
Definition CallResult : Type := Z * string * string.

(** File system: what is stored at a path, paths compared as written. *)
Inductive node : Type := File (content : string) | Dir.

#[global] Instance node_eq_dec : EqDecision node.
Proof. solve_decision. Defined.

Inductive exn : Type :=
| AttributeError | TypeError | KeyError
| FileNotFoundError | PermissionError
| FileExistsError | NotADirectoryError | IsADirectoryError
| OtherError (what : string).

#[global] Instance exn_eq_dec : EqDecision exn.
Proof. solve_decision. Defined.

Inductive log_msg : Type :=
| LogFoundCMake (path version : string)
| LogFoundNO
| LogDidNotFind (name : string).

Inductive warn_msg : Type :=
| WarnCouldNotRun (cmd : string)
| WarnNotThere (cmd : string)
| WarnNoPermission (cmd : string) (unix_hint : bool)
| WarnVersionTooOld (path version required : string).

Inductive event : Type :=
| EvLookupEntry (m : MachineChoice)
| EvFromEntry (entry : list string)
| EvDefaultProgram (path : string)
| EvPopen (cmd : list string) (env : option EnvDict) (cwd : option string)
| EvMakedirs (p : string)
| EvExists (p : string)
| EvWrite (p : string) (content : string)
| EvLog (m : log_msg)
| EvWarning (m : warn_msg).

(** The process state the class works on. *)
Record World : Type := mkWorld {
  class_cmakebin : PerMachine cmakebin_value;
  class_cmakevers : PerMachine (option string);
  class_cmake_cache : gmap CacheKey CallResult;
  os_environ : EnvDict;
  fs : gmap string node;
  next_id : nat;
  trace : list event
}.

Definition emit (e : event) (w : World) : World :=
  mkWorld (class_cmakebin w) (class_cmakevers w) (class_cmake_cache w)
          (os_environ w) (fs w) (next_id w) (trace w ++ [e]).

Definition set_fs (f : gmap string node) (w : World) : World :=
  mkWorld (class_cmakebin w) (class_cmakevers w) (class_cmake_cache w)
          (os_environ w) f (next_id w) (trace w).

Definition set_cache (c : gmap CacheKey CallResult) (w : World) : World :=
  mkWorld (class_cmakebin w) (class_cmakevers w) c
          (os_environ w) (fs w) (next_id w) (trace w).

Definition set_class_cmakebin (m : MachineChoice) (b : cmakebin_value) (w : World) : World :=
  mkWorld (per_set (class_cmakebin w) m b) (class_cmakevers w) (class_cmake_cache w)
          (os_environ w) (fs w) (next_id w) (trace w).

Definition set_class_cmakevers (m : MachineChoice) (v : option string) (w : World) : World :=
  mkWorld (class_cmakebin w) (per_set (class_cmakevers w) m v) (class_cmake_cache w)
          (os_environ w) (fs w) (next_id w) (trace w).

Definition bump_id (w : World) : World :=
  mkWorld (class_cmakebin w) (class_cmakevers w) (class_cmake_cache w)
          (os_environ w) (fs w) (S (next_id w)) (trace w).

(** The events a computation added when it took [w] to [w']. *)
Definition new_events (w w' : World) : list event :=
  drop (length (trace w)) (trace w').

(** What a launched process hands back: a completed run (with the file
    system as the process left it) or the exception raised by the launch. *)
Inductive popen_outcome : Type :=
| Completed (rc : Z) (out err : string) (fs' : gmap string node)
| LaunchRaised (e : exn).

(** What the world outside the class can depend on: the files, the ambient
    environment and everything that happened so far.  The class attributes
    are not part of it. *)
Record Outside : Type := mkOutside {
  out_fs : gmap string node;
  out_environ : EnvDict;
  out_history : list event
}.

Definition outside (w : World) : Outside :=
  mkOutside (fs w) (os_environ w) (trace w).

(** The collaborators of the executor that are defined elsewhere. *)
Class Host : Type := {
  (** [Popen_safe(cmd, env=..., cwd=...)] *)
  Popen_safe : list string -> option EnvDict -> option string -> Outside -> popen_outcome;
  (** [ExternalProgram.from_entry('cmake', entry)] *)
  from_entry : list string -> Outside -> ExternalProgram.t;
  (** [ExternalProgram(path, silent=True)] *)
  new_program : string -> Outside -> ExternalProgram.t;
  (** [mesonlib.is_windows()] *)
  is_windows : bool;
  (** [os.path.realpath(__file__)] *)
  module_realpath : string;
  (** [ctypes.sizeof(ctypes.c_voidp)] *)
  sizeof_voidp : N
}.

(** [Environment], as far as the executor looks into it. *)
Record Environment : Type := mkEnvironment {
  (** [environment.binaries[m].lookup_entry('cmake')] *)
  lookup_entry : MachineChoice -> option (list string);
  (** [environment.machines.matches_build_machine(m)] *)
  matches_build_machine : MachineChoice -> bool;
  (** [environment.default_cmake] *)
  default_cmake : list string
}.

(** An instance of [CMakeExecutor]. *)
Record CMakeExecutor : Type := mkExecutor {
  min_version : string;
  environment : Environment;
  for_machine : MachineChoice;
  cmakebin : cmakebin_value;
  cmakevers : option string
}.

Definition set_cmakebin (b : cmakebin_value) (self : CMakeExecutor) : CMakeExecutor :=
  mkExecutor (min_version self) (environment self) (for_machine self) b (cmakevers self).

Definition set_cmakevers (v : option string) (self : CMakeExecutor) : CMakeExecutor :=
  mkExecutor (min_version self) (environment self) (for_machine self) (cmakebin self) v.

(* ===================================================================== *)
(** ** The monad: state of the process, plus Python exceptions *)
(* ===================================================================== *)

Inductive res (A : Type) : Type :=
| Ret (a : A)
| Raise (e : exn).
Arguments Ret {A} _.
Arguments Raise {A} _.

Definition M (A : Type) : Type := World -> res A * World.

Definition ret {A} (a : A) : M A := fun w => (Ret a, w).

Definition raise {A} (e : exn) : M A := fun w => (Raise e, w).

Definition bind {A B} (m : M A) (f : A -> M B) : M B :=
  fun w =>
    match m w with
    | (Ret a, w1) => f a w1
    | (Raise e, w1) => (Raise e, w1)
    end.

Definition gets {A} (f : World -> A) : M A := fun w => (Ret (f w), w).

Definition modify (f : World -> World) : M unit := fun w => (Ret tt, f w).

(** The body of a [try]: its outcome as a value, for the handlers. *)
Definition attempt {A} (m : M A) : M (res A) :=
  fun w => let '(r, w1) := m w in (Ret r, w1).

Declare Scope py_scope.
Delimit Scope py_scope with py.
Notation "x <- c1 ;; c2" := (bind c1 (fun x => c2))
  (at level 100, c1 at next level, right associativity) : py_scope.
Notation "c1 ;; c2" := (bind c1 (fun _ => c2))
  (at level 100, right associativity) : py_scope.
Local Open Scope py_scope.

(* ===================================================================== *)
(** ** Operating-system and logging primitives *)
(* ===================================================================== *)

(** The directories [os.makedirs(p)] visits: every proper prefix of [p]
    that ends before a slash, then [p] itself, shortest first. *)
Fixpoint dir_prefixes (acc l : list ascii) : list string :=
  let here :=
    match acc with
    | [] => []
    | a :: _ => if Ascii.eqb a "/"%char then [] else [string_of_list_ascii (rev acc)]
    end in
  match l with
  | [] => here
  | c :: l' =>
      if Ascii.eqb c "/"%char then here ++ dir_prefixes (c :: acc) l'
      else dir_prefixes (c :: acc) l'
  end.

(** Create each directory of the chain that is missing; an existing
    directory is accepted ([exist_ok=True]); a file in the way raises. *)
Fixpoint mkdir_chain (qs : list string) (f : gmap string node)
  : res unit * gmap string node :=
  match qs with
  | [] => (Ret tt, f)
  | q :: rest =>
      match f !! q with
      | None => mkdir_chain rest (<[q := Dir]> f)
      | Some Dir => mkdir_chain rest f
      | Some (File _) =>
          (Raise (match rest with [] => FileExistsError | _ => NotADirectoryError end), f)
      end
  end.

(** [os.makedirs(p, exist_ok=True)] *)
Definition makedirs (p : string) : M unit :=
  fun w =>
    let w1 := emit (EvMakedirs p) w in
    let '(r, f) := mkdir_chain (dir_prefixes [] (list_ascii_of_string p)) (fs w1) in
    (r, set_fs f w1).

(** [with open(p, 'w') as fp: fp.write(content)] : truncate or create. *)
Definition write_file (p content : string) : M unit :=
  fun w =>
    let w1 := emit (EvWrite p content) w in
    match fs w1 !! p with
    | Some Dir => (Raise IsADirectoryError, w1)
    | _ => (Ret tt, set_fs (<[p := File content]> (fs w1)) w1)
    end.

(** [os.path.exists(p)] *)
Definition path_exists (p : string) : M bool :=
  fun w =>
    let w1 := emit (EvExists p) w in
    (Ret (bool_decide (is_Some (fs w1 !! p))), w1).

Definition mlog_log (m : log_msg) : M unit := modify (emit (EvLog m)).
Definition mlog_warning (m : warn_msg) : M unit := modify (emit (EvWarning m)).

(** Attribute access on whatever [cmakebin] holds: [None] and [False] have
    neither [get_path] nor [get_command]. *)
Definition bin_get_path (b : cmakebin_value) : M string :=
  match b with
  | BinProg p => ret (ExternalProgram.get_path p)
  | _ => raise AttributeError
  end.

Definition bin_get_command (b : cmakebin_value) : M (list string) :=
  match b with
  | BinProg p => ret (ExternalProgram.get_command p)
  | _ => raise AttributeError
  end.

(** [version_compare(self.cmakevers, self.min_version)]; a version that is
    [None] is not a string to compare. *)
Definition version_compare_opt (v : option string) (minimum : string) : M bool :=
  match v with
  | Some s => ret (Version.version_compare s minimum)
  | None => raise TypeError
  end.

(** ['{}'.format(v)] for a value that is a string or [None] *)
Definition format_opt (v : option string) : string :=
  match v with Some s => s | None => "None" end.

(** [not x] for a value that is a string or [None] *)
Definition falsy (v : option string) : bool :=
  match v with
  | None => true
  | Some s => bool_decide (s = EmptyString)
  end.

Definition lines (l : list string) : string :=
  fold_right (fun x acc => x +:+ String PyStr.nl acc) EmptyString l.

Definition quoted (s : string) : string :=
  String PyStr.dquote (s +:+ String PyStr.dquote EmptyString).

Definition marker_text : string :=
  lines ["CMAKE_PLATFORM_INFO_INITIALIZED:INTERNAL=1"].

Section Executor.

Context {H : Host}.

(** An [ExternalProgram] object comes into being: a fresh identity. *)
Definition construct (ev : event) (mk : Outside -> ExternalProgram.t)
  : M ExternalProgram.t :=
  fun w =>
    let w1 := emit ev w in
    (Ret (ExternalProgram.with_id (next_id w1) (mk (outside w1))), bump_id w1).

(** [Popen_safe(cmd, env=env, cwd=cwd)] *)
Definition popen (cmd : list string) (env : option EnvDict) (cwd : option string)
  : M CallResult :=
  fun w =>
    let w1 := emit (EvPopen cmd env cwd) w in
    match Popen_safe cmd env cwd (outside w1) with
    | Completed rc out err f => (Ret (rc, out, err), set_fs f w1)
    | LaunchRaised e => (Raise e, w1)
    end.

Definition c_stub : string :=
  lines [ "# Fake CMake file to skip the boring and slow stuff";
          "set(CMAKE_C_COMPILER " +:+ quoted module_realpath
            +:+ ") # Just give CMake a valid full path to any file";
          "set(CMAKE_C_COMPILER_ID " +:+ quoted "GNU" +:+ ") # Pretend we have found GCC";
          "set(CMAKE_COMPILER_IS_GNUCC 1)";
          "set(CMAKE_C_COMPILER_LOADED 1)";
          "set(CMAKE_C_COMPILER_WORKS TRUE)";
          "set(CMAKE_C_ABI_COMPILED TRUE)";
          "set(CMAKE_SIZEOF_VOID_P " +:+ quoted (pretty sizeof_voidp) +:+ ")" ].

Definition cxx_stub : string :=
  lines [ "# Fake CMake file to skip the boring and slow stuff";
          "set(CMAKE_CXX_COMPILER " +:+ quoted module_realpath
            +:+ ") # Just give CMake a valid full path to any file";
          "set(CMAKE_CXX_COMPILER_ID " +:+ quoted "GNU" +:+ ") # Pretend we have found GCC";
          "set(CMAKE_COMPILER_IS_GNUCXX 1)";
          "set(CMAKE_CXX_COMPILER_LOADED 1)";
          "set(CMAKE_CXX_COMPILER_WORKS TRUE)";
          "set(CMAKE_CXX_ABI_COMPILED TRUE)";
          "set(CMAKE_SIZEOF_VOID_P " +:+ quoted (pretty sizeof_voidp) +:+ ")" ].

(* =================================================================== *)
(** ** [CMakeExecutor] *)
(* =================================================================== *)

(** What the generator [search()] yields, before the object is built:
    the generator is lazy, so a candidate is only constructed when the
    [for] loop asks for it. *)
Inductive candidate : Type :=
| CandEntry (entry : list string)
| CandDefault (path : string).

(** [search()], lines 57-72, as the ordered list of what it will yield. *)
Definition search (environment : Environment) (for_machine : MachineChoice)
  : M (list candidate) :=
  modify (emit (EvLookupEntry for_machine)) ;;
  match lookup_entry environment for_machine with
  | Some potential_cmakepath =>
      (* We never fallback if the user-specified option is no good. *)
      ret [CandEntry potential_cmakepath]
  | None =>
      if matches_build_machine environment for_machine
      then ret (map CandDefault (default_cmake environment))
      else ret []
  end.

(** The [yield] of one candidate. *)
Definition materialize (c : candidate) : M ExternalProgram.t :=
  match c with
  | CandEntry e => construct (EvFromEntry e) (from_entry e)
  | CandDefault p => construct (EvDefaultProgram p) (new_program p)
  end.

(** [check_cmake], lines 105-126. *)
Definition check_cmake (cmakebin : ExternalProgram.t) : M (option string) :=
  if negb (ExternalProgram.found cmakebin) then
    mlog_log (LogDidNotFind (ExternalProgram.name cmakebin)) ;;
    ret None
  else
    r <- attempt (popen (ExternalProgram.get_command cmakebin ++ ["--version"]) None None) ;;
    match r with
    | Ret (rc, out, _) =>
        if negb (rc =? 0) then
          mlog_warning (WarnCouldNotRun
                          (PyStr.join_space (ExternalProgram.get_command cmakebin))) ;;
          ret None
        else
          ret (Some (PyStr.strip
                       (PyStr.re_sub_label "cmake version" (PyStr.first_line out))))
    | Raise FileNotFoundError =>
        mlog_warning (WarnNotThere
                        (PyStr.join_space (ExternalProgram.get_command cmakebin))) ;;
        ret None
    | Raise PermissionError =>
        mlog_warning (WarnNoPermission
                        (PyStr.join_space (ExternalProgram.get_command cmakebin))
                        (negb is_windows)) ;;
        ret None
    | Raise e => raise e
    end.

(** The [for ... else] of lines 83-101 over what [search()] yields. *)
Fixpoint probe_candidates (for_machine : MachineChoice) (silent : bool)
         (cands : list candidate) : M unit :=
  match cands with
  | [] =>
      (if negb silent then mlog_log LogFoundNO else ret tt) ;;
      (* False instead of None: searched for it and not found it *)
      modify (set_class_cmakebin for_machine BinFalse) ;;
      modify (set_class_cmakevers for_machine None)
  | c :: rest =>
      potential_cmakebin <- materialize c ;;
      version_if_ok <- check_cmake potential_cmakebin ;;
      if falsy version_if_ok then probe_candidates for_machine silent rest
      else
        (if negb silent
         then mlog_log (LogFoundCMake (ExternalProgram.get_path potential_cmakebin)
                                      (format_opt version_if_ok))
         else ret tt) ;;
        modify (set_class_cmakebin for_machine (BinProg potential_cmakebin)) ;;
        modify (set_class_cmakevers for_machine version_if_ok)
  end.

(** [find_cmake_binary], lines 53-103. *)
Definition find_cmake_binary (self : CMakeExecutor) (environment : Environment)
           (silent : bool) : M (cmakebin_value * option string) :=
  cached <- gets (fun w => per_get (class_cmakebin w) (for_machine self)) ;;
  match cached with
  | BinFalse => ret tt
  | BinProg _ => ret tt
  | BinNone =>
      cands <- search environment (for_machine self) ;;
      probe_candidates (for_machine self) silent cands
  end ;;
  gets (fun w => (per_get (class_cmakebin w) (for_machine self),
                  per_get (class_cmakevers w) (for_machine self))).

(** [__init__], lines 36-51. *)
Definition __init__ (environment : Environment) (version : string)
           (for_machine : MachineChoice) (silent : bool) : M CMakeExecutor :=
  let self := mkExecutor version environment for_machine BinNone None in
  found_pair <- find_cmake_binary self environment silent ;;
  let self := set_cmakevers (snd found_pair) (set_cmakebin (fst found_pair) self) in
  match cmakebin self with
  | BinFalse => ret (set_cmakebin BinNone self)
  | _ =>
      ok <- version_compare_opt (cmakevers self) (min_version self) ;;
      if negb ok then
        let self := set_cmakebin BinNone self in
        (* the arguments of mlog.warning are evaluated first *)
        path <- bin_get_path (cmakebin self) ;;
        mlog_warning (WarnVersionTooOld path (format_opt (cmakevers self))
                                        (min_version self)) ;;
        ret self
      else ret self
  end.

(** [_cache_key], lines 128-131. *)
Definition _cache_key (self : CMakeExecutor) (args : list string) (build_dir : string)
           (env : option EnvDict) : CacheKey :=
  let fenv := match env with
              | Some e => Some (list_to_set e : gset (string * string))
              | None => None
              end in
  let targs := args in
  (ident_of (cmakebin self), targs, build_dir, fenv).

(** [_call_real], lines 133-140. *)
Definition _call_real (self : CMakeExecutor) (args : list string) (build_dir : string)
           (env : EnvDict) : M CallResult :=
  makedirs build_dir ;;
  base <- bin_get_command (cmakebin self) ;;
  let cmd := base ++ args in
  popen cmd (Some env) (Some build_dir).

(** [call], lines 142-154. *)
Definition call (self : CMakeExecutor) (args : list string) (build_dir : string)
           (env : option EnvDict) (disable_cache : bool) : M CallResult :=
  env <- match env with
         | None => gets os_environ
         | Some e => ret e
         end ;;
  if disable_cache then _call_real self args build_dir env
  else
    let key := _cache_key self args build_dir (Some env) in
    cache <- gets class_cmake_cache ;;
    match cache !! key with
    | None =>
        r <- _call_real self args build_dir env ;;
        modify (fun w => set_cache (<[key := r]> (class_cmake_cache w)) w)
    | Some _ => ret tt
    end ;;
    cache <- gets class_cmake_cache ;;
    match cache !! key with
    | Some r => ret r
    | None => raise KeyError
    end.

(** [call_with_fake_build], lines 156-200. *)
Definition call_with_fake_build (self : CMakeExecutor) (args : list string)
           (build_dir : string) (env : option EnvDict) : M CallResult :=
  (* First check the cache *)
  let key := _cache_key self args build_dir env in
  cache <- gets class_cmake_cache ;;
  match cache !! key with
  | Some r => ret r
  | None =>
      makedirs build_dir ;;
      (* Reset the CMake cache *)
      write_file (build_dir +:+ "/CMakeCache.txt") marker_text ;;
      (* Fake the compiler files *)
      let comp_dir := build_dir +:+ "/CMakeFiles/" +:+ format_opt (cmakevers self) in
      makedirs comp_dir ;;
      let c_comp := comp_dir +:+ "/CMakeCCompiler.cmake" in
      let cxx_comp := comp_dir +:+ "/CMakeCXXCompiler.cmake" in
      c_there <- path_exists c_comp ;;
      (if negb c_there then write_file c_comp c_stub else ret tt) ;;
      cxx_there <- path_exists cxx_comp ;;
      (if negb cxx_there then write_file cxx_comp cxx_stub else ret tt) ;;
      call self args build_dir env false
  end.

(** [found], [version], [executable_path], [get_command], [machine_choice]. *)
Definition found (self : CMakeExecutor) : bool :=
  negb (bool_decide (cmakebin self = BinNone)).

Definition version (self : CMakeExecutor) : option string := cmakevers self.

Definition executable_path (self : CMakeExecutor) : M string :=
  bin_get_path (cmakebin self).

Definition get_command (self : CMakeExecutor) : M (list string) :=
  bin_get_command (cmakebin self).

Definition machine_choice (self : CMakeExecutor) : MachineChoice := for_machine self.

End Executor.

(* ===================================================================== *)
(** ** Vocabulary of the statements *)
(* ===================================================================== *)

(** [preserves R m]: running [m] from any world [w] ends, normally or by an
    exception, in a world related to [w] by [R]. *)
Definition preserves {A} (R : World -> World -> Prop) (m : M A) : Prop :=
  forall w, R w (snd (m w)).

(** Both class attributes of the discovery cache are the same, for every
    machine. *)
Definition same_class (w w' : World) : Prop :=
  class_cmakebin w' = class_cmakebin w /\ class_cmakevers w' = class_cmakevers w.

(** The slot of machine [m] is the same. *)
Definition same_slot (m : MachineChoice) (w w' : World) : Prop :=
  per_get (class_cmakebin w') m = per_get (class_cmakebin w) m
  /\ per_get (class_cmakevers w') m = per_get (class_cmakevers w) m.

(** The invocation cache is the same. *)
Definition same_cache (w w' : World) : Prop :=
  class_cmake_cache w' = class_cmake_cache w.

(** The trace only grew, and every event added satisfies [P]. *)
Definition adds (P : event -> Prop) (w w' : World) : Prop :=
  exists d, trace w' = trace w ++ d /\ Forall P d.

Definition any_event (ev : event) : Prop := True.

(** A file with content [c] at path [p] is still there with that content. *)
Definition keeps (p c : string) (w w' : World) : Prop :=
  fs w !! p = Some (File c) -> fs w' !! p = Some (File c).

(** The record of machine [m]: the pair of class attributes. *)
Definition record (w : World) (m : MachineChoice) : cmakebin_value * option string :=
  (per_get (class_cmakebin w) m, per_get (class_cmakevers w) m).

Definition Unresolved (w : World) (m : MachineChoice) : Prop :=
  per_get (class_cmakebin w) m = BinNone.

Definition Resolved (w : World) (m : MachineChoice) (p : ExternalProgram.t) (v : string)
  : Prop :=
  record w m = (BinProg p, Some v).

Definition ConfirmedAbsent (w : World) (m : MachineChoice) : Prop :=
  record w m = (BinFalse, None).

Definition record_is (w : World) (m : MachineChoice)
           (o : option (ExternalProgram.t * string)) : Prop :=
  match o with
  | Some (p, v) => Resolved w m p v
  | None => ConfirmedAbsent w m
  end.

(** Paths of the staged files. *)
Definition marker_path (build_dir : string) : string :=
  build_dir +:+ "/CMakeCache.txt".

Definition c_comp_path (build_dir : string) (vers : option string) : string :=
  (build_dir +:+ "/CMakeFiles/" +:+ format_opt vers) +:+ "/CMakeCCompiler.cmake".

Definition cxx_comp_path (build_dir : string) (vers : option string) : string :=
  (build_dir +:+ "/CMakeFiles/" +:+ format_opt vers) +:+ "/CMakeCXXCompiler.cmake".

(** The staged files [call_with_fake_build] may find in place and leave as
    they are: either stub with any content, the marker with the fixed line. *)
Definition staged (build_dir : string) (vers : option string) (p c : string) : Prop :=
  p = c_comp_path build_dir vers
  \/ p = cxx_comp_path build_dir vers
  \/ (p = marker_path build_dir /\ c = marker_text).

(** Events that build a default candidate. *)
Definition is_default_probe (ev : event) : Prop :=
  match ev with EvDefaultProgram _ => True | _ => False end.

Definition candidate_event (c : candidate) : event :=
  match c with
  | CandEntry e => EvFromEntry e
  | CandDefault p => EvDefaultProgram p
  end.

(** Number of process launches among some events. *)
Fixpoint launches (evs : list event) : nat :=
  match evs with
  | [] => O
  | EvPopen _ _ _ :: rest => S (launches rest)
  | _ :: rest => launches rest
  end.

(** The environment [call] works with: the one given, or [os.environ]. *)
Definition ambient_or (env : option EnvDict) (w : World) : EnvDict :=
  match env with Some e => e | None => os_environ w end.

(** [os.environ] is changed by someone between two calls. *)
Definition set_environ (env : EnvDict) (w : World) : World :=
  mkWorld (class_cmakebin w) (class_cmakevers w) (class_cmake_cache w)
          env (fs w) (next_id w) (trace w).

(** No key of the invocation cache carries the "environment unspecified"
    mark. *)
Definition no_unspecified_key (w : World) : Prop :=
  forall k, snd k = None -> class_cmake_cache w !! k = None.

Definition keeps_no_unspecified_key (w w' : World) : Prop :=
  no_unspecified_key w -> no_unspecified_key w'.

(** Operations a process performs on the class, one after another. *)
Inductive op : Type :=
| Construct (e : Environment) (version : string) (m : MachineChoice) (silent : bool)
| Call (self : CMakeExecutor) (args : list string) (build_dir : string)
       (env : option EnvDict) (disable_cache : bool)
| CallWithFakeBuild (self : CMakeExecutor) (args : list string) (build_dir : string)
       (env : option EnvDict).

Section Vocabulary.

Context {H : Host}.

(** A launched process leaves the file at [p] as it is. *)
Definition process_keeps (p c : string) : Prop :=
  forall cmd env cwd o rc out err f,
    Popen_safe cmd env cwd o = Completed rc out err f ->
    out_fs o !! p = Some (File c) -> f !! p = Some (File c).

(** The launch of a process fails only in the two ways [check_cmake]
    expects. *)
Definition launches_fail_as_expected : Prop :=
  forall cmd env cwd o ex,
    Popen_safe cmd env cwd o = LaunchRaised ex ->
    ex = FileNotFoundError \/ ex = PermissionError.

(** The search order and the version gate, read off the specification:
    candidates are taken in order, each is built and put through the gate;
    the first one whose gate answers a non-empty version is the outcome and
    nothing after it is touched; when all are turned down the outcome is
    [None].  The last argument is the world after the last probe. *)
Inductive gate_scan :
  list candidate -> World -> option (ExternalProgram.t * string) -> World -> Prop :=
| scan_exhausted w :
    gate_scan [] w None w
| scan_accept c rest w p w1 v w2 :
    materialize c w = (Ret p, w1) ->
    check_cmake p w1 = (Ret (Some v), w2) ->
    v <> EmptyString ->
    gate_scan (c :: rest) w (Some (p, v)) w2
| scan_reject c rest w p w1 vo w2 o w3 :
    materialize c w = (Ret p, w1) ->
    check_cmake p w1 = (Ret vo, w2) ->
    falsy vo = true ->
    gate_scan rest w2 o w3 ->
    gate_scan (c :: rest) w o w3.

(** The world after one operation, whether it returned or raised. *)
Definition run_op (o : op) (w : World) : World :=
  match o with
  | Construct e version m silent => snd (__init__ e version m silent w)
  | Call self args build_dir env disable_cache =>
      snd (call self args build_dir env disable_cache w)
  | CallWithFakeBuild self args build_dir env =>
      snd (call_with_fake_build self args build_dir env w)
  end.

Definition run_ops (ops : list op) (w : World) : World :=
  fold_left (fun w o => run_op o w) ops w.

End Vocabulary.

(** *** Further vocabulary *)

(** Number of [mlog.log] and [mlog.warning] lines among some events. *)
Fixpoint messages (evs : list event) : nat :=
  match evs with
  | [] => O
  | EvLog _ :: rest => S (messages rest)
  | EvWarning _ :: rest => S (messages rest)
  | _ :: rest => messages rest
  end.

(** A string all of whose characters are white space. *)
Definition blank (s : string) : Prop :=
  Forall (fun c => PyStr.isspace c = true) (list_ascii_of_string s).

(** A string with no white space in it. *)
Definition token (s : string) : Prop :=
  Forall (fun c => PyStr.isspace c = false) (list_ascii_of_string s).

(** A label with a white-space character that is followed, somewhere
    later, by a character that is not white space. *)
Definition spaced_label (label : list ascii) : Prop :=
  exists l1 sp l2 c,
    label = l1 ++ sp :: l2 /\ PyStr.isspace sp = true
    /\ c ∈ l2 /\ PyStr.isspace c = false.

Definition cmake_label : list ascii := list_ascii_of_string "cmake version".

(** An entry of the invocation cache is still there, with the same value. *)
Definition cache_grows (w w' : World) : Prop :=
  forall k r, class_cmake_cache w !! k = Some r -> class_cmake_cache w' !! k = Some r.

(** The same world with another trace. *)
Definition set_trace (t : list event) (w : World) : World :=
  mkWorld (class_cmakebin w) (class_cmakevers w) (class_cmake_cache w)
          (os_environ w) (fs w) (next_id w) t.

(** The one line [silent] holds back: the summary of a search. *)
Definition is_summary (ev : event) : Prop :=
  ev = EvLog LogFoundNO \/ exists path ver, ev = EvLog (LogFoundCMake path ver).

(* ===================================================================== *)
(** ** A concrete host, for examples *)
(* ===================================================================== *)

Module Demo.

Definition banner : string :=
  lines ["cmake version 3.9.0"; ""; "CMake suite maintained and supported by Kitware"].

(** A machine with CMake 3.9.0 installed as /usr/bin/cmake.  The version
    query prints the banner; any other run prints how many events the
    process has behind it, so two runs never print the same. *)
Definition host : Host := {|
  Popen_safe := fun cmd env cwd o =>
    match cwd with
    | None => Completed 0 banner "" (out_fs o)
    | Some _ => Completed 0 ("run " +:+ pretty (length (out_history o))) "" (out_fs o)
    end;
  from_entry := fun e o =>
    let p := hd "" e in
    ExternalProgram.mk 0 "cmake" e p (bool_decide (is_Some (out_fs o !! p)));
  new_program := fun p o =>
    let full := "/usr/bin/" +:+ p in
    ExternalProgram.mk 0 p [full] full (bool_decide (is_Some (out_fs o !! full)));
  is_windows := false;
  module_realpath := "/usr/lib/python3/mesonbuild/cmake/executor.py";
  sizeof_voidp := 8
|}.

Definition env : Environment :=
  mkEnvironment (fun _ => None)
                (fun m => match m with BUILD => true | HOST => false end)
                ["cmake"].

Definition w0 : World := {|
  class_cmakebin := mkPerMachine BinNone BinNone;
  class_cmakevers := mkPerMachine None None;
  class_cmake_cache := ∅;
  os_environ := [("PATH", "/usr/bin")];
  fs := {[ "/usr/bin/cmake" := File "ELF" ]};
  next_id := 0;
  trace := []
|}.

End Demo.

Module DemoRun.

(** The program object the first construction builds on [Demo.w0]. *)
Definition cmake : ExternalProgram.t :=
  ExternalProgram.mk 0 "cmake" ["/usr/bin/cmake"] "/usr/bin/cmake" true.

(** An executor of a caller content with CMake 3.4. *)
Definition exec : CMakeExecutor :=
  mkExecutor "3.4" Demo.env BUILD (BinProg cmake) (Some "3.9.0").

(** The world once that executor has been constructed. *)
Definition w1 : World := {|
  class_cmakebin := mkPerMachine (BinProg cmake) BinNone;
  class_cmakevers := mkPerMachine (Some "3.9.0") None;
  class_cmake_cache := ∅;
  os_environ := [("PATH", "/usr/bin")];
  fs := {[ "/usr/bin/cmake" := File "ELF" ]};
  next_id := 1;
  trace := [EvLookupEntry BUILD; EvDefaultProgram "cmake";
            EvPopen ["/usr/bin/cmake"; "--version"] None None;
            EvLog (LogFoundCMake "/usr/bin/cmake" "3.9.0")]
|}.

(** The same, with a build directory whose CMakeCache.txt was written by a
    real CMake run. *)
Definition w_stale : World :=
  set_fs (<["/tmp/b2/CMakeCache.txt" := File "CMAKE_BUILD_TYPE:STRING=Release"]>
            (<["/tmp/b2" := Dir]> (<["/tmp" := Dir]> (fs w1)))) w1.

End DemoRun.

Module DemoCross.

(** A cross file names a CMake for the host machine that is not there. *)
Definition env : Environment :=
  mkEnvironment (fun m => match m with HOST => Some ["/opt/cross/bin/cmake"] | BUILD => None end)
                (fun m => match m with BUILD => true | HOST => false end)
                ["cmake"].

End DemoCross.

Module DemoBroken.

(** The same machine, but launching anything fails with an error that is
    neither a missing file nor a missing permission. *)
Definition host : Host := {|
  Popen_safe := fun cmd env cwd o => LaunchRaised (OtherError "Exec format error");
  from_entry := from_entry (Host := Demo.host);
  new_program := new_program (Host := Demo.host);
  is_windows := false;
  module_realpath := "/usr/lib/python3/mesonbuild/cmake/executor.py";
  sizeof_voidp := 8
|}.

End DemoBroken.

(* ===================================================================== *)
(** ** Sanity checks of the text helpers *)
(* ===================================================================== *)

Example strip_banner :
  PyStr.strip (PyStr.re_sub_label "cmake version"
                 (PyStr.first_line
                    ("cmake version 3.9.0" +:+ String PyStr.nl "CMake suite")))
  = "3.9.0".
Proof. reflexivity. Qed.

Example compare_3_9_0_vs_3_10 : Version.version_compare "3.9.0" "3.10" = false.
Proof. reflexivity. Qed.

Example compare_3_16_vs_3_4 : Version.version_compare "3.16.3" "3.4" = true.
Proof. reflexivity. Qed.

(* ===================================================================== *)
(** ** Frame reasoning: what a computation leaves alone *)
(* ===================================================================== *)

Section Preserves.

Context (R : World -> World -> Prop) `{!PreOrder R}.

Lemma preserves_ret {A} (a : A) : preserves R (ret a).
Proof. intros w. simpl. reflexivity. Qed.

Lemma preserves_raise {A} (e : exn) : preserves R (@raise A e).
Proof. intros w. simpl. reflexivity. Qed.

Lemma preserves_gets {A} (f : World -> A) : preserves R (gets f).
Proof. intros w. simpl. reflexivity. Qed.

Lemma preserves_bind {A B} (m : M A) (f : A -> M B) :
  preserves R m -> (forall a, preserves R (f a)) -> preserves R (bind m f).
Proof.
  intros Hm Hf w. unfold bind. specialize (Hm w).
  destruct (m w) as [[a|e] w1]; simpl in *; [|exact Hm].
  etransitivity; [exact Hm|apply Hf].
Qed.

Lemma preserves_attempt {A} (m : M A) : preserves R m -> preserves R (attempt m).
Proof.
  intros Hm w. unfold attempt. specialize (Hm w).
  destruct (m w) as [r w1]. exact Hm.
Qed.

Lemma preserves_modify (f : World -> World) :
  (forall w, R w (f w)) -> preserves R (modify f).
Proof. intros Hf w. apply Hf. Qed.

End Preserves.

(** One step of a frame proof: peel a bind, or split on the value a
    [match] or an [if] of the program looks at. *)
Ltac frame_step :=
  match goal with
  | |- preserves _ (bind _ _) => apply preserves_bind; [try (typeclasses eauto)| |intros ?]
  | |- preserves _ (ret _) => apply preserves_ret; try (typeclasses eauto)
  | |- preserves _ (raise _) => apply preserves_raise; try (typeclasses eauto)
  | |- preserves _ (gets _) => apply preserves_gets; try (typeclasses eauto)
  | |- preserves _ (attempt _) => apply preserves_attempt
  | |- preserves _ (match ?x with _ => _ end) => destruct x
  | |- preserves _ (if ?b then _ else _) => destruct b
  end.

Ltac frame := repeat frame_step.

#[global] Instance same_class_preorder : PreOrder same_class.
Proof.
  split.
  - intros w. split; reflexivity.
  - intros a b c [? ?] [? ?]. split; congruence.
Qed.

#[global] Instance same_slot_preorder m : PreOrder (same_slot m).
Proof.
  split.
  - intros w. split; reflexivity.
  - intros a b c [? ?] [? ?]. split; congruence.
Qed.

#[global] Instance same_cache_preorder : PreOrder same_cache.
Proof.
  split.
  - intros w. reflexivity.
  - intros a b c ? ?. unfold same_cache in *. congruence.
Qed.

#[global] Instance adds_preorder P : PreOrder (adds P).
Proof.
  split.
  - intros w. exists []. split; [by rewrite app_nil_r|constructor].
  - intros a b c (d1 & E1 & F1) (d2 & E2 & F2). exists (d1 ++ d2). split.
    + rewrite E2, E1. by rewrite <- app_assoc.
    + by apply Forall_app.
Qed.

#[global] Instance keeps_preorder p c : PreOrder (keeps p c).
Proof.
  split.
  - intros w Hw. exact Hw.
  - intros a b d Hab Hbd Ha. apply Hbd, Hab, Ha.
Qed.

Lemma same_class_slot m w w' : same_class w w' -> same_slot m w w'.
Proof. intros [E1 E2]. split; congruence. Qed.

Lemma new_events_adds P w w' : adds P w w' -> Forall P (new_events w w').
Proof.
  intros (d & E & F). unfold new_events. rewrite E.
  by rewrite drop_app_length.
Qed.

Lemma new_events_app w d (w' : World) :
  trace w' = trace w ++ d -> new_events w w' = d.
Proof. intros E. unfold new_events. rewrite E. by rewrite drop_app_length. Qed.

(** *** The primitives *)

Lemma mkdir_chain_keeps_files qs : forall f r f' p c,
  mkdir_chain qs f = (r, f') -> f !! p = Some (File c) -> f' !! p = Some (File c).
Proof.
  induction qs as [|q rest IH]; intros f r f' p c E Hp; simpl in E.
  - by simplify_eq.
  - destruct (f !! q) as [[content|]|] eqn:Eq.
    + by simplify_eq.
    + eauto.
    + eapply IH; [exact E|].
      rewrite lookup_insert_ne; [done|]. intros ->. congruence.
Qed.

Section PrimitiveFrames.

Context {H : Host}.

Lemma makedirs_same_class p : preserves same_class (makedirs p).
Proof. intros w. unfold makedirs. by destruct (mkdir_chain _ _). Qed.

Lemma makedirs_same_cache p : preserves same_cache (makedirs p).
Proof. intros w. unfold makedirs. by destruct (mkdir_chain _ _). Qed.

Lemma makedirs_keeps q p c : preserves (keeps p c) (makedirs q).
Proof.
  intros w Hp. unfold makedirs.
  destruct (mkdir_chain _ _) as [r f] eqn:E. simpl.
  eapply mkdir_chain_keeps_files; [exact E|exact Hp].
Qed.

Lemma makedirs_adds (P : event -> Prop) p :
  P (EvMakedirs p) -> preserves (adds P) (makedirs p).
Proof.
  intros HP w. unfold makedirs. destruct (mkdir_chain _ _) as [r f]. simpl.
  exists [EvMakedirs p]. split; [done|by constructor].
Qed.

Lemma write_file_same_class p s : preserves same_class (write_file p s).
Proof. intros w. unfold write_file. by repeat case_match. Qed.

Lemma write_file_same_cache p s : preserves same_cache (write_file p s).
Proof. intros w. unfold write_file. by repeat case_match. Qed.

Lemma write_file_keeps q s p c :
  q <> p \/ s = c -> preserves (keeps p c) (write_file q s).
Proof.
  intros Hq w Hp. unfold write_file. simpl.
  destruct (fs w !! q) as [[content|]|] eqn:Eq; simpl; try done.
  - destruct Hq as [Hne| ->].
    + by rewrite lookup_insert_ne.
    + destruct (decide (q = p)) as [->|Hne].
      * by rewrite lookup_insert_eq.
      * by rewrite lookup_insert_ne.
  - destruct Hq as [Hne| ->].
    + by rewrite lookup_insert_ne.
    + destruct (decide (q = p)) as [->|Hne]; [congruence|].
      by rewrite lookup_insert_ne.
Qed.

Lemma path_exists_same_class p : preserves same_class (path_exists p).
Proof. by intros w. Qed.

Lemma path_exists_same_cache p : preserves same_cache (path_exists p).
Proof. by intros w. Qed.

Lemma path_exists_keeps q p c : preserves (keeps p c) (path_exists q).
Proof. intros w Hp. exact Hp. Qed.

(** The guarded write of lines 176-177 and 188-189: whatever the path, a
    file that is already there keeps its content. *)
Lemma guarded_write_keeps q s p c :
  preserves (keeps p c)
    (bind (path_exists q) (fun there => if negb there then write_file q s else ret tt)).
Proof.
  intros w Hp. unfold bind, path_exists. simpl.
  case_bool_decide as Hthere; simpl; [exact Hp|].
  destruct (decide (q = p)) as [->|Hne].
  - exfalso. apply Hthere. by eexists.
  - by apply (write_file_keeps q s p c (or_introl Hne) (emit (EvExists q) w)).
Qed.

Lemma emit_same_class e : preserves same_class (modify (emit e)).
Proof. by intros w. Qed.

Lemma emit_same_cache e : preserves same_cache (modify (emit e)).
Proof. by intros w. Qed.

Lemma emit_keeps e p c : preserves (keeps p c) (modify (emit e)).
Proof. intros w Hp. exact Hp. Qed.

Lemma emit_adds (P : event -> Prop) e : P e -> preserves (adds P) (modify (emit e)).
Proof. intros HP w. exists [e]. split; [done|by constructor]. Qed.

Lemma construct_same_class ev mk : preserves same_class (construct ev mk).
Proof. by intros w. Qed.

Lemma construct_same_cache ev mk : preserves same_cache (construct ev mk).
Proof. by intros w. Qed.

Lemma construct_keeps ev mk p c : preserves (keeps p c) (construct ev mk).
Proof. intros w Hp. exact Hp. Qed.

Lemma construct_adds (P : event -> Prop) ev mk :
  P ev -> preserves (adds P) (construct ev mk).
Proof. intros HP w. exists [ev]. split; [done|by constructor]. Qed.

Lemma popen_same_class cmd env cwd : preserves same_class (popen cmd env cwd).
Proof. intros w. unfold popen. by destruct (Popen_safe _ _ _ _). Qed.

Lemma popen_same_cache cmd env cwd : preserves same_cache (popen cmd env cwd).
Proof. intros w. unfold popen. by destruct (Popen_safe _ _ _ _). Qed.

Lemma popen_adds (P : event -> Prop) cmd env cwd :
  P (EvPopen cmd env cwd) -> preserves (adds P) (popen cmd env cwd).
Proof.
  intros HP w. unfold popen. destruct (Popen_safe _ _ _ _); simpl;
    (exists [EvPopen cmd env cwd]; split; [done|by constructor]).
Qed.

Lemma popen_keeps cmd env cwd p c :
  process_keeps p c -> preserves (keeps p c) (popen cmd env cwd).
Proof.
  intros Hproc w Hp. unfold popen.
  destruct (Popen_safe _ _ _ _) eqn:E; simpl; [|exact Hp].
  eapply Hproc; [exact E|exact Hp].
Qed.

Lemma set_class_cmakebin_other m m' b :
  m <> m' -> preserves (same_slot m') (modify (set_class_cmakebin m b)).
Proof. intros Hne w. split; [|done]. simpl. by destruct m, m'. Qed.

Lemma set_class_cmakevers_other m m' v :
  m <> m' -> preserves (same_slot m') (modify (set_class_cmakevers m v)).
Proof. intros Hne w. split; [done|]. simpl. by destruct m, m'. Qed.

End PrimitiveFrames.

Create HintDb frames discriminated.

#[global] Hint Resolve
  makedirs_same_class makedirs_same_cache makedirs_keeps
  write_file_same_class write_file_same_cache
  path_exists_same_class path_exists_same_cache path_exists_keeps
  guarded_write_keeps
  emit_same_class emit_same_cache emit_keeps
  construct_same_class construct_same_cache construct_keeps
  popen_same_class popen_same_cache popen_keeps
  set_class_cmakebin_other set_class_cmakevers_other : frames.

(** *** The methods *)

Section MethodFrames.

Context {H : Host}.

Ltac frames :=
  unfold mlog_log, mlog_warning, bin_get_command, bin_get_path, version_compare_opt;
  frame; eauto with frames.

Lemma check_cmake_same_class p : preserves same_class (check_cmake p).
Proof. unfold check_cmake. frames. Qed.

Lemma check_cmake_same_cache p : preserves same_cache (check_cmake p).
Proof. unfold check_cmake. frames. Qed.

Lemma materialize_same_class c : preserves same_class (materialize c).
Proof. unfold materialize. frames. Qed.

Lemma materialize_same_cache c : preserves same_cache (materialize c).
Proof. unfold materialize. frames. Qed.

Lemma search_same_class e m : preserves same_class (search e m).
Proof. unfold search. frames. Qed.

Lemma search_same_cache e m : preserves same_cache (search e m).
Proof. unfold search. frames. Qed.

Lemma lift_same_slot {A} (c : M A) m :
  preserves same_class c -> preserves (same_slot m) c.
Proof. intros Hc w. apply same_class_slot, Hc. Qed.

Lemma probe_candidates_same_slot m silent cands m' :
  m <> m' -> preserves (same_slot m') (probe_candidates m silent cands).
Proof.
  intros Hne. induction cands as [|c rest IH]; simpl.
  - frames; apply lift_same_slot; eauto with frames.
  - frames;
      try (apply lift_same_slot;
           first [apply materialize_same_class|apply check_cmake_same_class
                 |eauto with frames]).
Qed.

Lemma probe_candidates_same_cache m silent cands :
  preserves same_cache (probe_candidates m silent cands).
Proof.
  induction cands as [|c rest IH]; simpl.
  - frames; by intros w.
  - frames;
      first [apply materialize_same_cache|apply check_cmake_same_cache|by intros w].
Qed.

Lemma find_cmake_binary_same_slot self e silent m' :
  for_machine self <> m' -> preserves (same_slot m') (find_cmake_binary self e silent).
Proof.
  intros Hne. unfold find_cmake_binary. frames.
  - apply lift_same_slot, search_same_class.
  - by apply probe_candidates_same_slot.
Qed.

Lemma find_cmake_binary_same_cache self e silent :
  preserves same_cache (find_cmake_binary self e silent).
Proof.
  unfold find_cmake_binary. frames.
  - apply search_same_cache.
  - apply probe_candidates_same_cache.
Qed.

Lemma init_same_slot e v m silent m' :
  m <> m' -> preserves (same_slot m') (__init__ e v m silent).
Proof.
  intros Hne. unfold __init__. frames.
  all: try (by apply find_cmake_binary_same_slot).
  all: apply lift_same_slot; eauto with frames.
Qed.

Lemma init_same_cache e v m silent : preserves same_cache (__init__ e v m silent).
Proof.
  unfold __init__. frames.
  all: apply find_cmake_binary_same_cache.
Qed.

Lemma call_real_same_class self args d env :
  preserves same_class (_call_real self args d env).
Proof. unfold _call_real. frames. Qed.

Lemma call_real_same_cache self args d env :
  preserves same_cache (_call_real self args d env).
Proof. unfold _call_real. frames. Qed.

Lemma call_real_keeps self args d env p c :
  process_keeps p c -> preserves (keeps p c) (_call_real self args d env).
Proof. intros Hp. unfold _call_real. frames. Qed.

Lemma set_cache_same_class (g : World -> gmap CacheKey CallResult) :
  preserves same_class (modify (fun w => set_cache (g w) w)).
Proof. by intros w. Qed.

Lemma set_cache_keeps (g : World -> gmap CacheKey CallResult) p c :
  preserves (keeps p c) (modify (fun w => set_cache (g w) w)).
Proof. intros w Hp. exact Hp. Qed.

Lemma call_same_class self args d env disable :
  preserves same_class (call self args d env disable).
Proof.
  unfold call. frames.
  all: first [apply call_real_same_class|apply set_cache_same_class].
Qed.

Lemma call_keeps self args d env disable p c :
  process_keeps p c -> preserves (keeps p c) (call self args d env disable).
Proof.
  intros Hp. unfold call. frames.
  all: first [by apply call_real_keeps|apply set_cache_keeps].
Qed.

Lemma call_with_fake_build_same_class self args d env :
  preserves same_class (call_with_fake_build self args d env).
Proof.
  unfold call_with_fake_build. frames.
  all: apply call_same_class.
Qed.

End MethodFrames.

(** *** Paths of the staged files *)

Lemma append_cancel_l (s a b : string) : s +:+ a = s +:+ b -> a = b.
Proof.
  induction s as [|ch s IH]; intros E; [exact E|].
  apply IH. change (String ch (s +:+ a) = String ch (s +:+ b)) in E. congruence.
Qed.

Lemma append_assoc3 (a b c : string) : (a +:+ b) +:+ c = a +:+ (b +:+ c).
Proof.
  induction a as [|ch a IH]; [reflexivity|].
  change (String ch ((a +:+ b) +:+ c) = String ch (a +:+ (b +:+ c))). by rewrite IH.
Qed.

Lemma marker_not_c_comp d v : marker_path d <> c_comp_path d v.
Proof.
  unfold marker_path, c_comp_path. rewrite append_assoc3.
  intros E. apply append_cancel_l in E. simpl in E. discriminate.
Qed.

Lemma marker_not_cxx_comp d v : marker_path d <> cxx_comp_path d v.
Proof.
  unfold marker_path, cxx_comp_path. rewrite append_assoc3.
  intros E. apply append_cancel_l in E. simpl in E. discriminate.
Qed.

Lemma c_comp_not_cxx_comp d v : c_comp_path d v <> cxx_comp_path d v.
Proof.
  unfold c_comp_path, cxx_comp_path.
  intros E. apply append_cancel_l in E. discriminate.
Qed.

Section FakeBuildFrames.

Context {H : Host}.

Lemma preserves_bind_assoc (R : World -> World -> Prop) `{!PreOrder R}
      {A B C} (m : M A) (g : A -> M B) (k : B -> M C) :
  preserves R (bind m g) -> (forall b, preserves R (k b)) ->
  preserves R (bind m (fun a => bind (g a) k)).
Proof.
  intros Hmg Hk w. specialize (Hmg w). unfold bind in *.
  destruct (m w) as [[a|e] w1]; simpl in *; [|exact Hmg].
  destruct (g a w1) as [[b|e] w2]; simpl in *; [|exact Hmg].
  etransitivity; [exact Hmg|apply Hk].
Qed.

Lemma call_with_fake_build_keeps self args build_dir env p c :
  process_keeps p c ->
  staged build_dir (cmakevers self) p c ->
  preserves (keeps p c) (call_with_fake_build self args build_dir env).
Proof.
  intros Hproc Hst. unfold call_with_fake_build.
  apply preserves_bind; [typeclasses eauto|apply preserves_gets; typeclasses eauto|].
  intros cache. destruct (cache !! _); [apply preserves_ret; typeclasses eauto|].
  apply preserves_bind; [typeclasses eauto|apply makedirs_keeps|intros _].
  apply preserves_bind; [typeclasses eauto| |intros _].
  { apply write_file_keeps. fold (marker_path build_dir).
    destruct Hst as [->|[->|[-> ->]]].
    - left. apply marker_not_c_comp.
    - left. apply marker_not_cxx_comp.
    - by right. }
  apply preserves_bind; [typeclasses eauto|apply makedirs_keeps|intros _].
  apply preserves_bind_assoc; [typeclasses eauto|apply guarded_write_keeps|intros _].
  apply preserves_bind_assoc; [typeclasses eauto|apply guarded_write_keeps|intros _].
  by apply call_keeps.
Qed.

End FakeBuildFrames.

(* ===================================================================== *)
(** ** Discovery: what [find_cmake_binary] and [__init__] compute *)
(* ===================================================================== *)

Lemma per_get_set_eq {A} (pm : PerMachine A) m a : per_get (per_set pm m a) m = a.
Proof. by destruct m. Qed.

Lemma per_get_set_ne {A} (pm : PerMachine A) m m' a :
  m <> m' -> per_get (per_set pm m a) m' = per_get pm m'.
Proof. by destruct m, m'. Qed.

Section Discovery.

Context {H : Host}.

Lemma gate_scan_functional cands w o1 w1 :
  gate_scan cands w o1 w1 -> forall o2 w2, gate_scan cands w o2 w2 -> o1 = o2 /\ w1 = w2.
Proof.
  induction 1 as [w|c rest w p w1 v w2 Hm Hc Hv|c rest w p w1 vo w2 o w3 Hm Hc Hf Hs IH];
    intros o2 w2' Hscan; inversion Hscan; subst; try done;
    repeat match goal with
      | E1 : ?f = _, E2 : ?f = _ |- _ => rewrite E1 in E2; simplify_eq
      end.
  - done.
  - simpl in *. by case_bool_decide.
  - simpl in *. by case_bool_decide.
  - by apply IH.
Qed.

Lemma materialize_returns c w :
  exists p, materialize c w = (Ret p, snd (materialize c w)).
Proof. destruct c; simpl; by eexists. Qed.

(** The loop, normal exit: it stored what the scan found. *)
Lemma probe_candidates_scan m silent cands : forall w w',
  probe_candidates m silent cands w = (Ret tt, w') ->
  exists o w1, gate_scan cands w o w1 /\ record_is w' m o.
Proof.
  induction cands as [|c rest IH]; intros w w' E.
  - exists None, w. split; [constructor|].
    simpl in E. unfold bind, mlog_log, modify, ret in E.
    destruct silent; simpl in E; simplify_eq;
      unfold ConfirmedAbsent, record; simpl; by destruct m.
  - simpl in E. unfold bind in E.
    destruct (materialize c w) as [[p|e] w1] eqn:Em;
      [|destruct c; simpl in Em; discriminate].
    destruct (check_cmake p w1) as [[vo|e] w2] eqn:Ec; [|discriminate].
    destruct (falsy vo) eqn:Ef.
    + destruct (IH _ _ E) as (o & w3 & Hs & Hr).
      exists o, w3. split; [|done]. by eapply scan_reject.
    + destruct vo as [v|]; [|discriminate]. simpl in Ef.
      case_bool_decide as Hv; [discriminate|].
      exists (Some (p, v)), w2. split; [by eapply scan_accept|].
      unfold mlog_log, modify, ret in E.
      destruct silent; simpl in E; simplify_eq;
        unfold Resolved, record; simpl; by destruct m.
Qed.

(** The loop, exit by an exception: nothing was stored. *)
Lemma probe_candidates_raise m silent cands : forall w e w',
  probe_candidates m silent cands w = (Raise e, w') -> same_class w w'.
Proof.
  induction cands as [|c rest IH]; intros w e w' E.
  - simpl in E. unfold bind, mlog_log, modify, ret in E.
    destruct silent; simpl in E; discriminate.
  - simpl in E. unfold bind in E.
    pose proof (materialize_same_class c w) as Hm.
    destruct (materialize c w) as [[p|e1] w1] eqn:Em;
      [|destruct c; simpl in Em; discriminate].
    pose proof (check_cmake_same_class p w1) as Hc.
    destruct (check_cmake p w1) as [[vo|e1] w2] eqn:Ec; simpl in *.
    + destruct (falsy vo) eqn:Ef.
      * etransitivity; [exact Hm|]. etransitivity; [exact Hc|]. by eapply IH.
      * unfold mlog_log, modify, ret in E. destruct silent; simpl in E; discriminate.
    + simplify_eq. etransitivity; [exact Hm|exact Hc].
Qed.

(** A record that is already there is handed back; the world is not
    touched. *)
Lemma find_cmake_binary_cached self e silent w :
  ~ Unresolved w (for_machine self) ->
  find_cmake_binary self e silent w = (Ret (record w (for_machine self)), w).
Proof.
  intros Hres. unfold find_cmake_binary, bind, gets, Unresolved in *.
  by destruct (per_get (class_cmakebin w) (for_machine self)).
Qed.

(** What [find_cmake_binary] hands back is the record it leaves behind;
    when it raises, the record is as before. *)
Lemma find_cmake_binary_returns_record self e silent w r w' :
  find_cmake_binary self e silent w = (r, w') ->
  match r with
  | Ret found_pair => found_pair = record w' (for_machine self)
  | Raise _ => same_class w w'
  end.
Proof.
  intros E. unfold find_cmake_binary, bind, gets in E.
  destruct (per_get (class_cmakebin w) (for_machine self)) eqn:Eslot;
    simpl in E; simplify_eq; try done.
  unfold ret in E.
  pose proof (search_same_class e (for_machine self) w) as Hs.
  destruct (search e (for_machine self) w) as [[cands|ex] w1] eqn:Es; simpl in *.
  - destruct (probe_candidates (for_machine self) silent cands w1)
      as [[[]|ex] w2] eqn:Ep; simplify_eq; [done|].
    etransitivity; [exact Hs|]. by eapply probe_candidates_raise.
  - by simplify_eq.
Qed.

(** The first request for a machine: search, then the scan, then the
    record the scan calls for. *)
Lemma find_cmake_binary_first self e silent w found_pair w' :
  Unresolved w (for_machine self) ->
  find_cmake_binary self e silent w = (Ret found_pair, w') ->
  exists cands w0 o w1,
    search e (for_machine self) w = (Ret cands, w0)
    /\ gate_scan cands w0 o w1
    /\ record_is w' (for_machine self) o
    /\ found_pair = record w' (for_machine self).
Proof.
  intros Hun E.
  pose proof (find_cmake_binary_returns_record _ _ _ _ _ _ E) as Hpair.
  unfold find_cmake_binary, bind, gets, Unresolved in *. rewrite Hun in E.
  destruct (search e (for_machine self) w) as [[cands|ex] w0] eqn:Es; [|discriminate].
  destruct (probe_candidates (for_machine self) silent cands w0)
    as [[[]|ex] w2] eqn:Ep; [|discriminate].
  simpl in E. simplify_eq.
  destruct (probe_candidates_scan _ _ _ _ _ Ep) as (o & w1 & Hscan & Hrec).
  by exists cands, w0, o, w1.
Qed.

(** [__init__] after [find_cmake_binary]: the four ways it can end. *)
Lemma init_world e v m silent w :
  snd (__init__ e v m silent w)
  = snd (find_cmake_binary (mkExecutor v e m BinNone None) e silent w).
Proof.
  unfold __init__, bind.
  destruct (find_cmake_binary _ e silent w) as [[[b vo]|ex] w1]; simpl; [|done].
  destruct b; simpl; try done; destruct vo as [ver|]; simpl; try done;
    by destruct (Version.version_compare ver v).
Qed.

Lemma init_find_raises e v m silent w ex w1 :
  find_cmake_binary (mkExecutor v e m BinNone None) e silent w = (Raise ex, w1) ->
  __init__ e v m silent w = (Raise ex, w1).
Proof. intros E. unfold __init__, bind. by rewrite E. Qed.

Lemma init_absent e v m silent w vo w1 :
  find_cmake_binary (mkExecutor v e m BinNone None) e silent w
  = (Ret (BinFalse, vo), w1) ->
  __init__ e v m silent w = (Ret (mkExecutor v e m BinNone vo), w1).
Proof. intros E. unfold __init__, bind. by rewrite E. Qed.

Lemma init_version_ok e v m silent w p ver w1 :
  find_cmake_binary (mkExecutor v e m BinNone None) e silent w
  = (Ret (BinProg p, Some ver), w1) ->
  Version.version_compare ver v = true ->
  __init__ e v m silent w = (Ret (mkExecutor v e m (BinProg p) (Some ver)), w1).
Proof. intros E Hv. unfold __init__, bind. rewrite E. simpl. by rewrite Hv. Qed.

(** Line 46 clears [self.cmakebin]; line 48 then asks it for its path. *)
Lemma init_version_too_old e v m silent w p ver w1 :
  find_cmake_binary (mkExecutor v e m BinNone None) e silent w
  = (Ret (BinProg p, Some ver), w1) ->
  Version.version_compare ver v = false ->
  __init__ e v m silent w = (Raise AttributeError, w1).
Proof. intros E Hv. unfold __init__, bind. rewrite E. simpl. by rewrite Hv. Qed.

End Discovery.

Section DiscoveryTheorems.

Context {H : Host}.

Lemma init_cached e v m silent w :
  ~ Unresolved w m -> snd (__init__ e v m silent w) = w.
Proof.
  intros Hres. rewrite init_world.
  by rewrite (find_cmake_binary_cached (mkExecutor v e m BinNone None) e silent w Hres).
Qed.

Lemma same_slot_record m w w' : same_slot m w w' -> record w' m = record w m.
Proof. intros [E1 E2]. unfold record. by rewrite E1, E2. Qed.

Lemma run_op_keeps_record m o w :
  ~ Unresolved w m -> record (run_op o w) m = record w m.
Proof.
  intros Hres. destruct o as [e v m' silent|self args d env dis|self args d env]; simpl.
  - destruct (decide (m' = m)) as [->|Hne].
    + by rewrite init_cached.
    + apply same_slot_record. by apply init_same_slot.
  - apply same_slot_record, same_class_slot, call_same_class.
  - apply same_slot_record, same_class_slot, call_with_fake_build_same_class.
Qed.

Lemma run_ops_keep_record m ops : forall w,
  ~ Unresolved w m -> record (run_ops ops w) m = record w m.
Proof.
  induction ops as [|o ops IH]; intros w Hres; [done|].
  simpl. fold (run_ops ops (run_op o w)).
  pose proof (run_op_keeps_record m o w Hres) as E.
  rewrite IH; [exact E|].
  unfold Unresolved, record in *. intros Hun. apply Hres. congruence.
Qed.

(** C8. Per machine role the discovery record is written at most once.  The
    first request takes it from Unresolved to Resolved or ConfirmedAbsent;
    once it is not Unresolved, no sequence of constructions and invocations
    (for any role, with any arguments) changes it, [find_cmake_binary]
    hands the stored record back, and a construction for that role leaves
    the whole world as it was: no candidate search, no version query. *)
Theorem discovery_record_written_once (m : MachineChoice) (w : World) :
  (Unresolved w m ->
   forall self e silent found_pair w',
     for_machine self = m ->
     find_cmake_binary self e silent w = (Ret found_pair, w') ->
     ConfirmedAbsent w' m \/ exists p v, Resolved w' m p v)
  /\ (~ Unresolved w m ->
      (forall ops, record (run_ops ops w) m = record w m)
      /\ (forall self e silent,
             for_machine self = m ->
             find_cmake_binary self e silent w = (Ret (record w m), w))
      /\ (forall e v silent, snd (__init__ e v m silent w) = w)).
Proof.
  split.
  - intros Hun self e silent found_pair w' <- E.
    destruct (find_cmake_binary_first _ _ _ _ _ _ Hun E)
      as (cands & w0 & o & w1 & _ & _ & Hrec & _).
    destruct o as [[p v]|]; simpl in Hrec; [right|left]; eauto.
  - intros Hres. split; [|split].
    + intros ops. by apply run_ops_keep_record.
    + intros self e silent <-. by apply find_cmake_binary_cached.
    + intros e v silent. by apply init_cached.
Qed.

(** C10. When the record a construction leaves behind for its role is
    ConfirmedAbsent (stored earlier, or stored by this very construction on
    exhausting the candidates), the construction returns an executor,
    [found()] is false, and [version()] is [None]. *)
Theorem absent_executor_not_found e v m silent w r w' :
  __init__ e v m silent w = (r, w') ->
  ConfirmedAbsent w' m ->
  exists self, r = Ret self /\ found self = false /\ version self = None.
Proof.
  intros E Habs.
  pose proof (init_world e v m silent w) as Hw. rewrite E in Hw. simpl in Hw.
  destruct (find_cmake_binary (mkExecutor v e m BinNone None) e silent w)
    as [r0 w1] eqn:Ef.
  simpl in Hw. subst w1.
  pose proof (find_cmake_binary_returns_record _ _ _ _ _ _ Ef) as Hr. simpl in Hr.
  destruct r0 as [found_pair|ex].
  - subst found_pair. rewrite Habs in Ef.
    rewrite (init_absent _ _ _ _ _ _ _ Ef) in E. simplify_eq.
    eexists. split; [reflexivity|]. by split.
  - exfalso.
    assert (~ Unresolved w m) as Hres.
    { unfold Unresolved, ConfirmedAbsent, record in *. destruct Hr as [Hb _].
      rewrite <- Hb. intros Hun. congruence. }
    rewrite (find_cmake_binary_cached (mkExecutor v e m BinNone None) e silent w Hres)
      in Ef.
    discriminate.
Qed.

(** What discovery adds to the trace. *)
Lemma check_cmake_adds (P : event -> Prop) p :
  (forall cmd env cwd, P (EvPopen cmd env cwd)) ->
  (forall msg, P (EvLog msg)) -> (forall msg, P (EvWarning msg)) ->
  preserves (adds P) (check_cmake p).
Proof.
  intros Hpo Hlog Hwarn. unfold check_cmake, mlog_log, mlog_warning.
  frame; first [by apply emit_adds|by apply popen_adds].
Qed.

Lemma probe_candidates_adds (P : event -> Prop) m silent cands :
  (forall cmd env cwd, P (EvPopen cmd env cwd)) ->
  (forall msg, P (EvLog msg)) -> (forall msg, P (EvWarning msg)) ->
  Forall (fun c => P (candidate_event c)) cands ->
  preserves (adds P) (probe_candidates m silent cands).
Proof.
  intros Hpo Hlog Hwarn Hc. induction Hc as [|c rest Hc Hrest IH]; simpl.
  - unfold mlog_log. frame; try (by apply emit_adds).
    all: apply preserves_modify; intros w; exists []; by rewrite app_nil_r.
  - unfold mlog_log. frame; try (by apply emit_adds); try (by apply check_cmake_adds).
    all: try (destruct c; simpl in *; by apply construct_adds).
    all: try exact IH.
    all: apply preserves_modify; intros w; exists []; by rewrite app_nil_r.
Qed.

(** C9. With an explicit configuration entry for the role, the candidate
    search yields exactly the one candidate built from that entry; no
    default path is ever built or probed by [find_cmake_binary] or by a
    construction; and when the entry turns out unusable the record becomes
    ConfirmedAbsent, with no fallback. *)
Theorem explicit_entry_is_authoritative e m entry :
  lookup_entry e m = Some entry ->
  (forall w, search e m w = (Ret [CandEntry entry], emit (EvLookupEntry m) w))
  /\ (forall self silent w,
         for_machine self = m ->
         Forall (fun ev => ~ is_default_probe ev)
                (new_events w (snd (find_cmake_binary self e silent w))))
  /\ (forall v silent w,
         Forall (fun ev => ~ is_default_probe ev)
                (new_events w (snd (__init__ e v m silent w))))
  /\ (forall self silent w found_pair w',
         for_machine self = m ->
         Unresolved w m ->
         find_cmake_binary self e silent w = (Ret found_pair, w') ->
         ConfirmedAbsent w' m
         \/ exists v, Resolved w' m
                        (ExternalProgram.with_id
                           (next_id w)
                           (from_entry entry
                              (outside (emit (EvFromEntry entry)
                                             (emit (EvLookupEntry m) w))))) v).
Proof.
  intros Hentry.
  assert (Hsearch : forall w, search e m w = (Ret [CandEntry entry], emit (EvLookupEntry m) w)).
  { intros w. unfold search, bind, modify. simpl. by rewrite Hentry. }
  assert (Hfind : forall self silent,
             for_machine self = m ->
             preserves (adds (fun ev => ~ is_default_probe ev))
                       (find_cmake_binary self e silent)).
  { intros self silent <-. unfold find_cmake_binary.
    apply preserves_bind; [typeclasses eauto|apply preserves_gets; typeclasses eauto|].
    intros cached. apply preserves_bind; [typeclasses eauto| |intros; apply preserves_gets;
      typeclasses eauto].
    destruct cached; try (apply preserves_ret; typeclasses eauto).
    intros w. unfold bind. rewrite Hsearch.
    transitivity (emit (EvLookupEntry (for_machine self)) w).
    - exists [EvLookupEntry (for_machine self)]. split; [done|]. constructor; [|constructor].
      by intros [].
    - apply probe_candidates_adds; try (intros; by intros []).
      constructor; [|constructor]. by intros []. }
  split; [exact Hsearch|]. split; [|split].
  - intros self silent w Hm. apply new_events_adds. by apply Hfind.
  - intros v silent w. rewrite init_world. apply new_events_adds. by apply Hfind.
  - intros self silent w found_pair w' <- Hun E.
    destruct (find_cmake_binary_first _ _ _ _ _ _ Hun E)
      as (cands & w0 & o & w1 & Hs & Hscan & Hrec & _).
    rewrite Hsearch in Hs. simplify_eq.
    destruct o as [[p v]|]; simpl in Hrec; [right|by left].
    exists v. inversion Hscan; subst.
    + unfold materialize, construct in *. simplify_eq. exact Hrec.
    + match goal with Hrest : gate_scan [] _ _ _ |- _ => inversion Hrest end.
Qed.

End DiscoveryTheorems.

Section GateTheorems.

Context {H : Host}.

(** C1 (as the code has it).  On the first request for a role,
    [find_cmake_binary] stores as Resolved exactly the first candidate, in
    search order, whose version gate answers a non-empty version string,
    and stores ConfirmedAbsent exactly when every candidate is turned down.
    The caller's minimum version takes no part: the same record is stored
    and returned whatever [min_version] the caller has. *)
Theorem discovery_stores_first_gate_pass self e silent w found_pair w' :
  Unresolved w (for_machine self) ->
  find_cmake_binary self e silent w = (Ret found_pair, w') ->
  exists cands w0,
    search e (for_machine self) w = (Ret cands, w0)
    /\ (forall p v,
           Resolved w' (for_machine self) p v
           <-> exists w1, gate_scan cands w0 (Some (p, v)) w1)
    /\ (ConfirmedAbsent w' (for_machine self)
        <-> exists w1, gate_scan cands w0 None w1)
    /\ found_pair = record w' (for_machine self)
    /\ forall minimum,
        find_cmake_binary
          (mkExecutor minimum (environment self) (for_machine self)
                      (cmakebin self) (cmakevers self)) e silent w
        = (Ret found_pair, w').
Proof.
  intros Hun E.
  destruct (find_cmake_binary_first _ _ _ _ _ _ Hun E)
    as (cands & w0 & o & w1 & Hs & Hscan & Hrec & Hpair).
  exists cands, w0. split; [exact Hs|]. split; [|split; [|split]].
  - intros p v. split.
    + intros Hres. exists w1.
      destruct o as [[p' v']|]; simpl in Hrec;
        unfold Resolved, ConfirmedAbsent in *; rewrite Hres in Hrec; by simplify_eq.
    + intros [w1' Hscan'].
      destruct (gate_scan_functional _ _ _ _ Hscan _ _ Hscan') as [-> _]. exact Hrec.
  - split.
    + intros Habs. exists w1.
      destruct o as [[p' v']|]; simpl in Hrec;
        unfold Resolved, ConfirmedAbsent in *; [|done]. rewrite Habs in Hrec. discriminate.
    + intros [w1' Hscan'].
      destruct (gate_scan_functional _ _ _ _ Hscan _ _ Hscan') as [-> _]. exact Hrec.
  - exact Hpair.
  - intros minimum. exact E.
Qed.

Lemma check_cmake_absorbs p w :
  launches_fail_as_expected -> exists vo w', check_cmake p w = (Ret vo, w').
Proof.
  intros Hexp. unfold check_cmake, bind, attempt, popen, mlog_log, mlog_warning, modify, ret.
  destruct (negb (ExternalProgram.found p)); simpl; [by eauto|].
  destruct (Popen_safe _ _ _ _) as [rc out err f|ex] eqn:E; simpl.
  - destruct (negb (rc =? 0)); simpl; by eauto.
  - destruct (Hexp _ _ _ _ _ E) as [-> | ->]; simpl; by eauto.
Qed.

Lemma probe_candidates_absorbs m silent cands :
  launches_fail_as_expected ->
  forall w, exists w', probe_candidates m silent cands w = (Ret tt, w').
Proof.
  intros Hexp. induction cands as [|c rest IH]; intros w; simpl.
  - unfold bind, mlog_log, modify, ret. destruct silent; simpl; by eauto.
  - unfold bind.
    destruct (materialize_returns c w) as [p Em]. rewrite Em.
    destruct (check_cmake_absorbs p (snd (materialize c w)) Hexp) as (vo & w2 & Ec).
    rewrite Ec. destruct (falsy vo); [apply IH|].
    unfold mlog_log, modify, ret. destruct silent; simpl; by eauto.
Qed.

Lemma find_cmake_binary_absorbs self e silent w :
  launches_fail_as_expected ->
  exists found_pair w', find_cmake_binary self e silent w = (Ret found_pair, w').
Proof.
  intros Hexp. unfold find_cmake_binary, bind, gets.
  destruct (per_get (class_cmakebin w) (for_machine self)); simpl; try by eauto.
  unfold search, bind, modify, ret. simpl.
  destruct (lookup_entry e (for_machine self)); [|destruct (matches_build_machine _ _)];
    match goal with
    | |- context [probe_candidates ?m ?s ?cs ?w0] =>
        destruct (probe_candidates_absorbs m s cs Hexp w0) as [w2 ->]
    end; by eauto.
Qed.

(** C3 (where the code departs from it).  The conditions met while probing
    are absorbed: when a launch fails only by a missing file or a missing
    permission, neither [check_cmake] nor [find_cmake_binary] ever raises.
    The construction itself does raise: when the record found is Resolved
    with a version below the caller's minimum, [__init__] ends in an
    AttributeError (line 46 clears [self.cmakebin], line 48 asks it for its
    path) instead of returning an executor that is not found. *)
Theorem construction_raises_on_old_version :
  launches_fail_as_expected ->
  (forall p w, exists vo w', check_cmake p w = (Ret vo, w'))
  /\ (forall self e silent w,
         exists found_pair w', find_cmake_binary self e silent w = (Ret found_pair, w'))
  /\ (forall e minimum m silent w p ver w1,
         find_cmake_binary (mkExecutor minimum e m BinNone None) e silent w
         = (Ret (BinProg p, Some ver), w1) ->
         Version.version_compare ver minimum = false ->
         __init__ e minimum m silent w = (Raise AttributeError, w1)).
Proof.
  intros Hexp. split; [|split].
  - intros p w. by apply check_cmake_absorbs.
  - intros self e silent w. by apply find_cmake_binary_absorbs.
  - intros e minimum m silent w p ver w1 E Hv. by eapply init_version_too_old.
Qed.

(** C2 (where the code departs from it).  The scenario of the claim: the
    role is unresolved, there is no explicit entry, the one default
    candidate is found, its version query exits with 0 and prints the
    banner "cmake version 3.9.0", and the caller asks for "3.10".  The
    construction does not complete: it raises AttributeError, after having
    stored the candidate as Resolved with version "3.9.0". *)
Theorem construction_below_minimum_raises e m silent w path :
  Unresolved w m ->
  lookup_entry e m = None ->
  matches_build_machine e m = true ->
  default_cmake e = [path] ->
  (forall o, out_fs o = fs w -> ExternalProgram.found (new_program path o) = true) ->
  (forall cmd o, out_fs o = fs w ->
     exists out err f,
       Popen_safe cmd None None o = Completed 0 out err f
       /\ PyStr.first_line out = "cmake version 3.9.0") ->
  exists p w',
    __init__ e "3.10" m silent w = (Raise AttributeError, w')
    /\ Resolved w' m p "3.9.0".
Proof.
  intros Hun Hlook Hbuild Hdef Hfound Hrun.
  assert (Efind : exists p w',
             find_cmake_binary (mkExecutor "3.10" e m BinNone None) e silent w
             = (Ret (BinProg p, Some "3.9.0"), w')
             /\ Resolved w' m p "3.9.0").
  { unfold find_cmake_binary, bind, gets, Unresolved in *. simpl. rewrite Hun.
    unfold search, bind, modify, ret. simpl. rewrite Hlook, Hbuild, Hdef. simpl.
    unfold bind, construct, check_cmake, ExternalProgram.found. simpl.
    match goal with
    | |- context [ExternalProgram.is_found (new_program path ?o)] =>
        pose proof (Hfound o eq_refl) as Hf; unfold ExternalProgram.found in Hf;
        rewrite Hf
    end.
    simpl. unfold bind, attempt, popen.
    match goal with
    | |- context [Popen_safe ?c None None ?o] =>
        destruct (Hrun c o eq_refl) as (out & err & f & Erun & Hbanner); rewrite Erun
    end.
    simpl. rewrite Hbanner.
    change (PyStr.strip (PyStr.re_sub_label "cmake version" "cmake version 3.9.0"))
      with "3.9.0".
    simpl. unfold mlog_log, modify, ret, bind.
    destruct silent; simpl; rewrite !per_get_set_eq; eexists _, _;
      (split; [reflexivity|]); unfold Resolved, record; simpl; by destruct m. }
  destruct Efind as (p & w' & Ef & Hres).
  exists p, w'. split; [|exact Hres].
  eapply init_version_too_old; [exact Ef|reflexivity].
Qed.

End GateTheorems.

(** C1, as stated, fails: asked for at least "3.10" on a machine whose only
    CMake is 3.9.0, the first construction stores that CMake as the Resolved
    record of the role. *)
Lemma old_candidate_becomes_the_record :
  ~ (forall (H : Host) e minimum m silent w r w' p v,
        Unresolved w m ->
        __init__ e minimum m silent w = (r, w') ->
        Resolved w' m p v ->
        Version.version_compare v minimum = true).
Proof.
  intros Hclaim.
  pose (run := __init__ (H := Demo.host) Demo.env "3.10" BUILD false Demo.w0).
  specialize (Hclaim Demo.host Demo.env "3.10" BUILD false Demo.w0 (fst run) (snd run)
                     (ExternalProgram.mk 0 "cmake" ["/usr/bin/cmake"] "/usr/bin/cmake" true)
                     "3.9.0").
  assert (Version.version_compare "3.9.0" "3.10" = true) as Hv.
  { apply Hclaim.
    - reflexivity.
    - apply surjective_pairing.
    - vm_compute. reflexivity. }
  vm_compute in Hv. discriminate.
Qed.

(* ===================================================================== *)
(** ** Invocation: [call] and [call_with_fake_build] *)
(* ===================================================================== *)

Section Invocation.

Context {H : Host}.

(** A [_call_real] that returns: one directory creation, one launch, and
    nothing else changed but the files. *)
Lemma call_real_returns self args d env w r w' :
  _call_real self args d env w = (Ret r, w') ->
  exists p,
    cmakebin self = BinProg p
    /\ trace w' = trace w ++ [EvMakedirs d;
                              EvPopen (ExternalProgram.get_command p ++ args)
                                      (Some env) (Some d)]
    /\ class_cmake_cache w' = class_cmake_cache w
    /\ os_environ w' = os_environ w
    /\ same_class w w'.
Proof.
  unfold _call_real, bind, makedirs, bin_get_command, popen, ret, raise.
  destruct (mkdir_chain _ _) as [[[]|ex] f]; [|discriminate].
  destruct (cmakebin self) as [| |p]; try discriminate.
  destruct (Popen_safe _ _ _ _) as [rc out err f'|ex] eqn:E; [|discriminate].
  intros Eq. simplify_eq. exists p. simpl.
  rewrite <- app_assoc. done.
Qed.

(** What a cached [call] leaves behind when it returns. *)
Lemma call_returns self args d env w r w' :
  call self args d env false w = (Ret r, w') ->
  let key := _cache_key self args d (Some (ambient_or env w)) in
  class_cmake_cache w' !! key = Some r
  /\ os_environ w' = os_environ w
  /\ match class_cmake_cache w !! key with
     | Some r0 => r = r0 /\ w' = w
     | None =>
         class_cmake_cache w' = <[key := r]> (class_cmake_cache w)
         /\ launches (new_events w w') = 1%nat
     end.
Proof.
  intros E key.
  assert (Eenv : (match env with None => gets os_environ | Some e0 => ret e0 end) w
                 = (Ret (ambient_or env w), w)) by (by destruct env).
  unfold call, bind in E. rewrite Eenv in E. fold key in E. unfold gets at 1 in E.
  destruct (class_cmake_cache w !! key) as [r0|] eqn:Ek.
  - unfold ret, gets in E. rewrite Ek in E. by simplify_eq.
  - destruct (_call_real self args d (ambient_or env w) w) as [[r1|ex] w1] eqn:Er;
      [|discriminate].
    destruct (call_real_returns _ _ _ _ _ _ _ Er) as (p & _ & Ht & Hc & He & _).
    unfold modify, gets in E. simpl in E. rewrite lookup_insert_eq in E.
    unfold ret in E. simplify_eq. simpl. rewrite lookup_insert_eq, Hc.
    repeat split; try done.
    by rewrite (new_events_app w _ (set_cache (<[key:=r]> (class_cmake_cache w1)) w1) Ht).
Qed.

(** With the cache bypassed, [call] is [_call_real] on the environment. *)
Lemma call_bypass self args d env w :
  call self args d env true w = _call_real self args d (ambient_or env w) w.
Proof. unfold call, bind. by destruct env. Qed.

Lemma call_real_ignores_cache self args d env c w :
  _call_real self args d env (set_cache c w)
  = (fst (_call_real self args d env w), set_cache c (snd (_call_real self args d env w))).
Proof.
  unfold _call_real, bind, makedirs, bin_get_command, popen, ret, raise. simpl.
  destruct (mkdir_chain _ _) as [[[]|ex] f]; [|done].
  destruct (cmakebin self) as [| |p]; try done.
  simpl. unfold outside. simpl.
  by destruct (Popen_safe _ _ _ _).
Qed.

(** A hit: the stored triple is handed back and nothing happens. *)
Lemma call_hit self args d env w r :
  class_cmake_cache w !! _cache_key self args d (Some (ambient_or env w)) = Some r ->
  call self args d env false w = (Ret r, w).
Proof.
  intros Hhit.
  assert (Eenv : (match env with None => gets os_environ | Some e0 => ret e0 end) w
                 = (Ret (ambient_or env w), w)) by (by destruct env).
  unfold call, bind. rewrite Eenv. unfold gets. rewrite Hhit. unfold ret.
  by rewrite Hhit.
Qed.

(** C7.  Two identical cached calls launch the process once: when the key
    is not yet in the cache and the first call returns a triple, that call
    launched the process exactly once, and the same call made again returns
    the same triple and leaves the world as it is (no launch, no event); in
    any world whose cache holds the key, the call returns the stored triple
    and changes nothing.  With [disable_cache] the cache is neither written
    (it is the same map afterwards, also when the call raises) nor read (the
    outcome is the same whatever the cache holds), and every call that
    returns has launched the process exactly once. *)
Theorem call_runs_the_process_once self args d env :
  (forall w r w1,
      class_cmake_cache w !! _cache_key self args d (Some (ambient_or env w)) = None ->
      call self args d env false w = (Ret r, w1) ->
      launches (new_events w w1) = 1%nat
      /\ call self args d env false w1 = (Ret r, w1))
  /\ (forall w r,
         class_cmake_cache w !! _cache_key self args d (Some (ambient_or env w)) = Some r ->
         call self args d env false w = (Ret r, w))
  /\ (forall w, class_cmake_cache (snd (call self args d env true w))
                = class_cmake_cache w)
  /\ (forall w c,
         call self args d env true (set_cache c w)
         = (fst (call self args d env true w),
            set_cache c (snd (call self args d env true w))))
  /\ (forall w r w1,
         call self args d env true w = (Ret r, w1) ->
         launches (new_events w w1) = 1%nat).
Proof.
  split; [|split; [|split; [|split]]].
  - intros w r w1 Hmiss E.
    destruct (call_returns _ _ _ _ _ _ _ E) as (Hhit & Henv & Hcase).
    rewrite Hmiss in Hcase. destruct Hcase as [Hc Hl]. split; [exact Hl|].
    assert (ambient_or env w1 = ambient_or env w) as Ha
      by (destruct env; [done|exact Henv]).
    rewrite <- Ha in Hhit. by apply call_hit.
  - intros w r. apply call_hit.
  - intros w. rewrite call_bypass. apply call_real_same_cache.
  - intros w c. rewrite !call_bypass.
    change (ambient_or env (set_cache c w)) with (ambient_or env w).
    apply call_real_ignores_cache.
  - intros w r w1 E. rewrite call_bypass in E.
    destruct (call_real_returns _ _ _ _ _ _ _ E) as (p & _ & Ht & _).
    by rewrite (new_events_app w _ w1 Ht).
Qed.

End Invocation.

#[global] Instance keeps_no_unspecified_key_preorder : PreOrder keeps_no_unspecified_key.
Proof.
  split.
  - intros w Hw. exact Hw.
  - intros a b c Hab Hbc Ha. apply Hbc, Hab, Ha.
Qed.

Lemma same_cache_keeps_no_unspecified_key {A} (c : M A) :
  preserves same_cache c -> preserves keeps_no_unspecified_key c.
Proof.
  intros Hc w Hw k Hk. specialize (Hc w). unfold same_cache in Hc. rewrite Hc.
  by apply Hw.
Qed.

Lemma bind_returns {A B} (m : M A) (f : A -> M B) w b w' :
  bind m f w = (Ret b, w') ->
  exists a w1, m w = (Ret a, w1) /\ f a w1 = (Ret b, w').
Proof.
  unfold bind. destruct (m w) as [[a|ex] w1]; [|discriminate]. by eauto.
Qed.

Section FakeBuild.

Context {H : Host}.

Lemma write_file_adds (P : event -> Prop) p s :
  P (EvWrite p s) -> preserves (adds P) (write_file p s).
Proof.
  intros HP w. unfold write_file. simpl.
  destruct (fs w !! p) as [[|]|]; simpl;
    (exists [EvWrite p s]; split; [done|by constructor]).
Qed.

Lemma path_exists_adds (P : event -> Prop) p :
  P (EvExists p) -> preserves (adds P) (path_exists p).
Proof. intros HP w. exists [EvExists p]. split; [done|by constructor]. Qed.

Lemma set_cache_adds (P : event -> Prop) (g : World -> gmap CacheKey CallResult) :
  preserves (adds P) (modify (fun w => set_cache (g w) w)).
Proof. intros w. exists []. split; [by rewrite app_nil_r|constructor]. Qed.

Lemma call_grows self args d env disable :
  preserves (adds any_event) (call self args d env disable).
Proof.
  unfold call, _call_real, bin_get_command.
  frame; first [by apply makedirs_adds|by apply popen_adds|apply set_cache_adds].
Qed.

Lemma makedirs_trace p w : trace (snd (makedirs p w)) = trace w ++ [EvMakedirs p].
Proof. unfold makedirs. by destruct (mkdir_chain _ _). Qed.

Lemma write_file_trace p s w : trace (snd (write_file p s w)) = trace w ++ [EvWrite p s].
Proof. unfold write_file. simpl. by destruct (fs w !! p) as [[|]|]. Qed.

(** The first event of [bind m f] is the one event of [m]. *)
Lemma bind_head_event {A B} (m : M A) (f : A -> M B) w ev :
  trace (snd (m w)) = trace w ++ [ev] ->
  (forall a, preserves (adds any_event) (f a)) ->
  exists rest, trace (snd (bind m f w)) = trace w ++ ev :: rest.
Proof.
  intros Hm Hf. unfold bind. destruct (m w) as [[a|ex] w1]; simpl in *.
  - destruct (Hf a w1) as (rest & Hr & _). exists rest.
    rewrite Hr, Hm. by rewrite <- app_assoc.
  - by exists [].
Qed.

Lemma bind_head_event_then {A B} (m : M A) (f : A -> M B) w a ev evs :
  fst (m w) = Ret a ->
  trace (snd (m w)) = trace w ++ [ev] ->
  (forall w1, exists rest, trace (snd (f a w1)) = trace w1 ++ evs ++ rest) ->
  exists rest, trace (snd (bind m f w)) = trace w ++ ev :: evs ++ rest.
Proof.
  intros Hr Hm Hf. unfold bind. destruct (m w) as [r w1]; simpl in *. subst r.
  destruct (Hf w1) as (rest & Hrest). exists rest.
  rewrite Hrest, Hm. by rewrite <- app_assoc.
Qed.

(** What follows the first [makedirs] in [call_with_fake_build] only
    appends to the trace. *)
Ltac staging_grows :=
  frame; first [apply call_grows|by apply makedirs_adds|by apply write_file_adds
               |by apply path_exists_adds].

(** On a miss of its own look-up, [call_with_fake_build] starts staging. *)
Lemma call_with_fake_build_miss self args d env w :
  class_cmake_cache w !! _cache_key self args d env = None ->
  exists rest,
    new_events w (snd (call_with_fake_build self args d env w)) = EvMakedirs d :: rest.
Proof.
  intros Hmiss. unfold call_with_fake_build. unfold bind at 1. unfold gets at 1.
  rewrite Hmiss.
  match goal with
  | |- context [bind (makedirs d) ?k w] =>
      destruct (bind_head_event (makedirs d) k w (EvMakedirs d) (makedirs_trace d w))
        as (rest & Hr)
  end.
  { intros _. staging_grows. }
  exists rest. by apply new_events_app.
Qed.

Lemma call_keeps_no_unspecified_key self args d env disable :
  preserves keeps_no_unspecified_key (call self args d env disable).
Proof.
  unfold call.
  frame; try (by apply same_cache_keeps_no_unspecified_key, call_real_same_cache).
  all: intros w Hw k Hk; simpl; rewrite lookup_insert_ne; [by apply Hw|];
    intros <-; discriminate.
Qed.

Lemma call_with_fake_build_keeps_no_unspecified_key self args d env :
  preserves keeps_no_unspecified_key (call_with_fake_build self args d env).
Proof.
  unfold call_with_fake_build.
  frame; try (apply call_keeps_no_unspecified_key);
    apply same_cache_keeps_no_unspecified_key; eauto with frames.
Qed.

Lemma run_op_keeps_no_unspecified_key o w :
  no_unspecified_key w -> no_unspecified_key (run_op o w).
Proof.
  destruct o as [e v m silent|self args d env dis|self args d env]; simpl.
  - apply (same_cache_keeps_no_unspecified_key _ (init_same_cache e v m silent)).
  - apply call_keeps_no_unspecified_key.
  - apply call_with_fake_build_keeps_no_unspecified_key.
Qed.

(** With an environment given, a repeated [call_with_fake_build] is a hit. *)
Lemma call_with_fake_build_repeat self args d e w r w1 :
  call_with_fake_build self args d (Some e) w = (Ret r, w1) ->
  call_with_fake_build self args d (Some e) w1 = (Ret r, w1).
Proof.
  intros E.
  assert (Hhit : class_cmake_cache w1 !! _cache_key self args d (Some e) = Some r).
  { unfold call_with_fake_build in E.
    apply bind_returns in E as (cache & w0 & Eg & E). unfold gets in Eg. simplify_eq.
    destruct (class_cmake_cache w0 !! _cache_key self args d (Some e)) as [r0|] eqn:Ek.
    - unfold ret in E. by simplify_eq.
    - do 7 (apply bind_returns in E as (? & ? & _ & E)).
      by destruct (call_returns _ _ _ _ _ _ _ E) as (Hk & _). }
  unfold call_with_fake_build, bind, gets. by rewrite Hhit.
Qed.

(** C4 (as the code has it).  The two compiler stub files are never
    rewritten: one that exists keeps its content through any call, provided
    the launched process itself leaves it alone.  The marker CMakeCache.txt
    is not protected: every call that misses the invocation cache writes the
    fixed line to it right after creating the build directory, so a marker
    keeps its content only when that content already was the fixed line. *)
Theorem fake_build_keeps_stubs_resets_marker self args build_dir env :
  (forall p c w,
      process_keeps p c ->
      staged build_dir (cmakevers self) p c ->
      fs w !! p = Some (File c) ->
      fs (snd (call_with_fake_build self args build_dir env w)) !! p = Some (File c))
  /\ (forall w,
         class_cmake_cache w !! _cache_key self args build_dir env = None ->
         fst (makedirs build_dir w) = Ret tt ->
         exists rest,
           new_events w (snd (call_with_fake_build self args build_dir env w))
           = EvMakedirs build_dir :: EvWrite (marker_path build_dir) marker_text :: rest).
Proof.
  split.
  - intros p c w Hproc Hst Hp. by apply (call_with_fake_build_keeps self args build_dir env p c).
  - intros w Hmiss Hmk. unfold call_with_fake_build. unfold bind at 1. unfold gets at 1.
    rewrite Hmiss.
    match goal with
    | |- context [bind (makedirs build_dir) ?k w] =>
        destruct (bind_head_event_then (makedirs build_dir) k w tt
                    (EvMakedirs build_dir)
                    [EvWrite (marker_path build_dir) marker_text]
                    Hmk (makedirs_trace build_dir w)) as (rest & Hr)
    end.
    { intros w1.
      match goal with
      | |- context [bind (write_file ?p ?s) ?k w1] =>
          destruct (bind_head_event (write_file p s) k w1 (EvWrite p s)
                      (write_file_trace p s w1)) as (rest & Hr)
      end.
      { intros _. staging_grows. }
      exists rest. exact Hr. }
    exists rest. by apply new_events_app.
Qed.

(** C5 (where the code departs from it).  [call] never stores a key that
    carries the unspecified-environment mark, so the look-up that opens
    [call_with_fake_build] cannot succeed when the environment is left
    unspecified: every such call, also a repeated one, goes on to create
    the build directory again (and to stage).  With an environment given,
    a repeated call does return the cached triple and touches nothing. *)
Theorem fake_build_restages_without_env :
  (forall o w, no_unspecified_key w -> no_unspecified_key (run_op o w))
  /\ (forall self args d w,
         no_unspecified_key w ->
         exists rest,
           new_events w (snd (call_with_fake_build self args d None w))
           = EvMakedirs d :: rest)
  /\ (forall self args d e w r w1,
         call_with_fake_build self args d (Some e) w = (Ret r, w1) ->
         call_with_fake_build self args d (Some e) w1 = (Ret r, w1)).
Proof.
  split; [|split].
  - intros o w. apply run_op_keeps_no_unspecified_key.
  - intros self args d w Hw. apply call_with_fake_build_miss. by apply Hw.
  - intros self args d e w r w1. apply call_with_fake_build_repeat.
Qed.

(** C6 (as the code has it).  An invocation key is the tuple of the
    program object's identity, the arguments in order, the directory, and
    the set of the environment's items (or the mark for "unspecified"), and
    two keys are equal exactly when these agree.  [call] never computes the
    mark: with the environment left unspecified it stores its result under
    the snapshot of the ambient environment at that moment, and leaves the
    entry of the marked key as it was. *)
Theorem cache_key_is_exact self1 self2 args1 args2 d1 d2 env1 env2 :
  (_cache_key self1 args1 d1 env1 = _cache_key self2 args2 d2 env2
   <-> ident_of (cmakebin self1) = ident_of (cmakebin self2)
       /\ args1 = args2 /\ d1 = d2
       /\ match env1, env2 with
          | None, None => True
          | Some e1, Some e2 => forall kv, kv ∈ e1 <-> kv ∈ e2
          | _, _ => False
          end)
  /\ (forall w r w',
         call self1 args1 d1 None false w = (Ret r, w') ->
         class_cmake_cache w' !! _cache_key self1 args1 d1 (Some (os_environ w)) = Some r
         /\ class_cmake_cache w' !! _cache_key self1 args1 d1 None
            = class_cmake_cache w !! _cache_key self1 args1 d1 None).
Proof.
  split.
  - unfold _cache_key. split.
    + intros E. simplify_eq. repeat split; try done.
      destruct env1 as [e1|], env2 as [e2|]; try done.
      intros kv. simplify_eq.
      match goal with Hs : list_to_set e1 = list_to_set e2 |- _ =>
        rewrite <- (elem_of_list_to_set (C := gset (string * string)) kv e1),
                <- (elem_of_list_to_set (C := gset (string * string)) kv e2), Hs end.
      done.
    + intros (-> & -> & -> & Henv). f_equal.
      destruct env1 as [e1|], env2 as [e2|]; try done.
      f_equal. apply set_eq. intros kv. rewrite !elem_of_list_to_set. apply Henv.
  - intros w r w' E.
    destruct (call_returns _ _ _ _ _ _ _ E) as (Hk & _ & Hcase). simpl in *.
    split; [exact Hk|].
    destruct (class_cmake_cache w !! _cache_key self1 args1 d1 (Some (os_environ w))).
    + by destruct Hcase as [_ ->].
    + destruct Hcase as [-> _]. by rewrite lookup_insert_ne.
Qed.

End FakeBuild.

(* ===================================================================== *)
(** ** The theorems at work on the concrete host *)
(* ===================================================================== *)

Lemma demo_launches_fail_as_expected : launches_fail_as_expected (H := Demo.host).
Proof. intros cmd env cwd o ex E. simpl in E. destruct cwd; discriminate. Qed.

Lemma demo_process_keeps p c : process_keeps (H := Demo.host) p c.
Proof.
  intros cmd env cwd o rc out err f E Hp. simpl in E.
  destruct cwd; by simplify_eq.
Qed.

Lemma demo_no_unspecified_key : no_unspecified_key DemoRun.w1.
Proof. intros k _. apply lookup_empty. Qed.

(** C4, as stated, fails for the marker file: a CMakeCache.txt left by a
    real CMake run is replaced by the fixed line. *)
Lemma stale_marker_is_overwritten :
  ~ (forall (H : Host) self args build_dir env p c w,
        process_keeps p c ->
        p = marker_path build_dir
        \/ p = c_comp_path build_dir (cmakevers self)
        \/ p = cxx_comp_path build_dir (cmakevers self) ->
        fs w !! p = Some (File c) ->
        fs (snd (call_with_fake_build self args build_dir env w)) !! p = Some (File c)).
Proof.
  intros Hclaim.
  specialize (Hclaim Demo.host DemoRun.exec ["--version"] "/tmp/b2" None
                     "/tmp/b2/CMakeCache.txt" "CMAKE_BUILD_TYPE:STRING=Release"
                     DemoRun.w_stale (demo_process_keeps _ _)
                     (or_introl eq_refl) eq_refl).
  vm_compute in Hclaim. discriminate.
Qed.

(** C6, as stated, fails in its last part: after a call with the
    environment left unspecified, the same call made once the ambient
    environment has changed does not find the first result: it launches the
    process again and returns what that run printed. *)
Lemma ambient_change_misses_the_cache :
  ~ (forall (H : Host) self args d w r w' ambient,
        call self args d None false w = (Ret r, w') ->
        fst (call self args d None false (set_environ ambient w')) = Ret r).
Proof.
  intros Hclaim.
  pose (run := call (H := Demo.host) DemoRun.exec ["--version"] "/tmp/b1" None false
                    DemoRun.w1).
  specialize (Hclaim Demo.host DemoRun.exec ["--version"] "/tmp/b1" DemoRun.w1
                     (0, "run 6", "") (snd run) [("PATH", "/opt/bin")]).
  assert (fst (call (H := Demo.host) DemoRun.exec ["--version"] "/tmp/b1" None false
                    (set_environ [("PATH", "/opt/bin")] (snd run)))
          = Ret (0, "run 6", "")) as Hsame.
  { apply Hclaim. transitivity (fst run, snd run); [apply surjective_pairing|].
    f_equal; try (vm_compute; reflexivity). }
  vm_compute in Hsame. discriminate.
Qed.

(** C1 on the demo machine: the first construction there stores CMake 3.9.0,
    whatever minimum is asked for. *)
Lemma discovery_stores_first_gate_pass_at_demo :
  let self := mkExecutor "3.10" Demo.env BUILD BinNone None in
  let run := find_cmake_binary (H := Demo.host) self Demo.env false Demo.w0 in
  exists cands w0,
    search Demo.env BUILD Demo.w0 = (Ret cands, w0)
    /\ (forall p v,
           Resolved (snd run) BUILD p v
           <-> exists w1, gate_scan (H := Demo.host) cands w0 (Some (p, v)) w1)
    /\ (ConfirmedAbsent (snd run) BUILD
        <-> exists w1, gate_scan (H := Demo.host) cands w0 None w1)
    /\ (BinProg DemoRun.cmake, Some "3.9.0") = record (snd run) BUILD
    /\ forall minimum,
        find_cmake_binary (H := Demo.host)
          (mkExecutor minimum Demo.env BUILD BinNone None) Demo.env false Demo.w0
        = (Ret (BinProg DemoRun.cmake, Some "3.9.0"), snd run).
Proof.
  intros self run.
  apply (discovery_stores_first_gate_pass (H := Demo.host) self Demo.env false Demo.w0).
  - reflexivity.
  - transitivity (fst run, snd run); [apply surjective_pairing|].
    f_equal; try (vm_compute; reflexivity).
Defined.

(** C3 on the demo machine: asking for 3.10 ends in AttributeError. *)
Lemma construction_raises_on_old_version_at_demo :
  fst (__init__ (H := Demo.host) Demo.env "3.10" BUILD false Demo.w0)
  = Raise AttributeError.
Proof.
  destruct (construction_raises_on_old_version (H := Demo.host)
              demo_launches_fail_as_expected) as (_ & _ & Hinit).
  pose (self := mkExecutor "3.10" Demo.env BUILD BinNone None).
  pose (run := find_cmake_binary (H := Demo.host) self Demo.env false Demo.w0).
  rewrite (Hinit Demo.env "3.10" BUILD false Demo.w0 DemoRun.cmake "3.9.0" (snd run)).
  - reflexivity.
  - transitivity (fst run, snd run); [apply surjective_pairing|].
    f_equal; try (vm_compute; reflexivity).
  - vm_compute. reflexivity.
Defined.

(** C2 on the demo machine: its scenario holds there. *)
Lemma construction_below_minimum_raises_at_demo :
  exists p w',
    __init__ (H := Demo.host) Demo.env "3.10" BUILD false Demo.w0
    = (Raise AttributeError, w')
    /\ Resolved w' BUILD p "3.9.0".
Proof.
  apply (construction_below_minimum_raises (H := Demo.host) Demo.env BUILD false Demo.w0
           "cmake").
  - reflexivity.
  - reflexivity.
  - reflexivity.
  - reflexivity.
  - intros o Ho. simpl. rewrite Ho. vm_compute. reflexivity.
  - intros cmd o Ho. exists Demo.banner, "", (out_fs o). split; reflexivity.
Defined.

(** C4 on the demo machine: a C compiler stub written by hand survives. *)
Lemma existing_stub_is_kept_at_demo :
  let p := "/tmp/b2/CMakeFiles/3.9.0/CMakeCCompiler.cmake" in
  let w := set_fs (<[p := File "# written by hand"]> (fs DemoRun.w_stale)) DemoRun.w_stale in
  fs (snd (call_with_fake_build (H := Demo.host) DemoRun.exec ["--version"] "/tmp/b2"
                                None w)) !! p
  = Some (File "# written by hand").
Proof.
  intros p w.
  apply (proj1 (fake_build_keeps_stubs_resets_marker (H := Demo.host) DemoRun.exec
                  ["--version"] "/tmp/b2" None)).
  - apply demo_process_keeps.
  - left. reflexivity.
  - vm_compute. reflexivity.
Defined.

(** C5 on the demo machine: the second call with no environment starts by
    creating the build directory again. *)
Lemma fake_build_restages_at_demo :
  let again := CallWithFakeBuild DemoRun.exec ["--version"] "/tmp/b2" None in
  let w2 := run_op (H := Demo.host) again DemoRun.w1 in
  exists rest,
    new_events w2
      (snd (call_with_fake_build (H := Demo.host) DemoRun.exec ["--version"] "/tmp/b2"
                                 None w2))
    = EvMakedirs "/tmp/b2" :: rest.
Proof.
  intros again w2.
  destruct (fake_build_restages_without_env (H := Demo.host)) as (Hkeep & Hmiss & _).
  apply Hmiss, Hkeep, demo_no_unspecified_key.
Defined.

(** The second of two identical calls with the environment left
    unspecified: the triple is the cached one, yet the build directory is
    created, the marker rewritten and both stub paths probed again. *)
Example second_fake_build_touches_disk :
  let again := CallWithFakeBuild DemoRun.exec ["--version"] "/tmp/b2" None in
  let w2 := run_op (H := Demo.host) again DemoRun.w1 in
  let second := call_with_fake_build (H := Demo.host) DemoRun.exec ["--version"]
                                     "/tmp/b2" None w2 in
  fst second = fst (call_with_fake_build (H := Demo.host) DemoRun.exec ["--version"]
                                         "/tmp/b2" None DemoRun.w1)
  /\ new_events w2 (snd second)
     = [EvMakedirs "/tmp/b2";
        EvWrite "/tmp/b2/CMakeCache.txt" marker_text;
        EvMakedirs "/tmp/b2/CMakeFiles/3.9.0";
        EvExists "/tmp/b2/CMakeFiles/3.9.0/CMakeCCompiler.cmake";
        EvExists "/tmp/b2/CMakeFiles/3.9.0/CMakeCXXCompiler.cmake"].
Proof. split; vm_compute; reflexivity. Qed.

(** C6 on the demo machine: the result is stored under the snapshot of
    [os.environ], and the entry of the marked key is as before. *)
Lemma unspecified_env_key_at_demo :
  let run := call (H := Demo.host) DemoRun.exec ["--version"] "/tmp/b1" None false
                  DemoRun.w1 in
  class_cmake_cache (snd run)
    !! _cache_key DemoRun.exec ["--version"] "/tmp/b1" (Some [("PATH", "/usr/bin")])
  = Some (0, "run 6", "")
  /\ class_cmake_cache (snd run) !! _cache_key DemoRun.exec ["--version"] "/tmp/b1" None
     = class_cmake_cache DemoRun.w1
         !! _cache_key DemoRun.exec ["--version"] "/tmp/b1" None.
Proof.
  intros run.
  apply (proj2 (cache_key_is_exact (H := Demo.host) DemoRun.exec DemoRun.exec
                  ["--version"] ["--version"] "/tmp/b1" "/tmp/b1" None None)
               DemoRun.w1 (0, "run 6", "") (snd run)).
  transitivity (fst run, snd run); [apply surjective_pairing|].
  f_equal; try (vm_compute; reflexivity).
Defined.

(** C7 on the demo machine: one launch, then a hit. *)
Lemma call_runs_the_process_once_at_demo :
  let run := call (H := Demo.host) DemoRun.exec ["--version"] "/tmp/b1" None false
                  DemoRun.w1 in
  launches (new_events DemoRun.w1 (snd run)) = 1%nat
  /\ call (H := Demo.host) DemoRun.exec ["--version"] "/tmp/b1" None false (snd run)
     = (Ret (0, "run 6", ""), snd run).
Proof.
  intros run.
  apply (proj1 (call_runs_the_process_once (H := Demo.host) DemoRun.exec ["--version"]
                  "/tmp/b1" None)).
  - apply lookup_empty.
  - transitivity (fst run, snd run); [apply surjective_pairing|].
    f_equal; try (vm_compute; reflexivity).
Defined.

(** C8 on the demo machine: four more operations leave the record of the
    build machine as the first construction stored it. *)
Lemma discovery_record_written_once_at_demo :
  record (run_ops (H := Demo.host)
            [Construct Demo.env "3.10" BUILD false;
             Call DemoRun.exec ["--version"] "/tmp/b1" None false;
             Construct DemoCross.env "3.4" HOST true;
             CallWithFakeBuild DemoRun.exec ["."] "/tmp/b2" None]
            DemoRun.w1) BUILD
  = (BinProg DemoRun.cmake, Some "3.9.0").
Proof.
  assert (~ Unresolved DemoRun.w1 BUILD) as Hres by (intros Hun; discriminate Hun).
  destruct (proj2 (discovery_record_written_once (H := Demo.host) BUILD DemoRun.w1) Hres)
    as (Hops & _).
  rewrite Hops. reflexivity.
Defined.

(** C9 on the demo machine: the cross file's entry is the only candidate. *)
Lemma explicit_entry_is_authoritative_at_demo :
  search DemoCross.env HOST Demo.w0
  = (Ret [CandEntry ["/opt/cross/bin/cmake"]], emit (EvLookupEntry HOST) Demo.w0).
Proof.
  apply (proj1 (explicit_entry_is_authoritative (H := Demo.host) DemoCross.env HOST
                  ["/opt/cross/bin/cmake"] eq_refl)).
Defined.

(** C10 on the demo machine: the entry of the cross file points nowhere,
    the executor is returned and is not found. *)
Lemma absent_executor_not_found_at_demo :
  let run := __init__ (H := Demo.host) DemoCross.env "3.4" HOST false Demo.w0 in
  exists self, fst run = Ret self /\ found self = false /\ version self = None.
Proof.
  intros run.
  apply (absent_executor_not_found (H := Demo.host) DemoCross.env "3.4" HOST false
           Demo.w0 (fst run) (snd run)).
  - apply surjective_pairing.
  - vm_compute. reflexivity.
Defined.

(* ===================================================================== *)
(** ** Further properties of the executor *)
(* ===================================================================== *)

Section VersionGate.

Context {H : Host}.

(** X1.  What [check_cmake] does in each of its outcomes.  A rejection
    ([None]) always comes with exactly one message, and the candidate was
    launched unless it reported itself not found; an acceptance launched
    the version query once and logged nothing; an exception is one the
    launch raised, other than the two that are handled, and nothing is
    logged for it.  The query is the program's command followed by
    [--version], with no environment and no working directory given. *)
Theorem check_cmake_outcomes p w r w' :
  check_cmake p w = (r, w') ->
  let query := EvPopen (ExternalProgram.get_command p ++ ["--version"]) None None in
  match r with
  | Ret None =>
      messages (new_events w w') = 1%nat
      /\ (if ExternalProgram.found p
          then exists msg, new_events w w' = [query; EvWarning msg]
          else new_events w w' = [EvLog (LogDidNotFind (ExternalProgram.name p))])
  | Ret (Some v) =>
      ExternalProgram.found p = true /\ new_events w w' = [query]
  | Raise ex =>
      ExternalProgram.found p = true /\ new_events w w' = [query]
      /\ ex <> FileNotFoundError /\ ex <> PermissionError
      /\ Popen_safe (ExternalProgram.get_command p ++ ["--version"]) None None
                    (outside (emit query w)) = LaunchRaised ex
  end.
Proof.
  intros E query.
  unfold check_cmake, bind, attempt, popen, mlog_log, mlog_warning, modify, ret, raise in E.
  fold query in E.
  destruct (ExternalProgram.found p) eqn:Ef; simpl in E.
  - destruct (Popen_safe _ _ _ _) as [rc out err f|ex] eqn:Ep; simpl in E.
    + destruct (negb (rc =? 0)); simpl in E; simplify_eq;
        unfold new_events; simpl; rewrite <- ?app_assoc, drop_app_length; simpl.
      * split; [done|by eexists].
      * done.
    + destruct ex; simpl in E; simplify_eq;
        unfold new_events; simpl; rewrite <- ?app_assoc, drop_app_length; simpl;
        first [by (split; [done|by eexists])|by repeat split].
  - simplify_eq. unfold new_events. simpl. by rewrite drop_app_length.
Qed.

End VersionGate.

(** *** Reading the version off the banner *)

Lemma lstrip_token l :
  Forall (fun c => PyStr.isspace c = false) l -> PyStr.lstrip_l l = l.
Proof. intros Hl. destruct Hl as [|c l Hc _]; simpl; [done|]. by rewrite Hc. Qed.

Lemma lstrip_blank_app a b :
  Forall (fun c => PyStr.isspace c = true) a -> PyStr.lstrip_l (a ++ b) = PyStr.lstrip_l b.
Proof. induction 1 as [|c a Hc _ IH]; simpl; [done|]. by rewrite Hc. Qed.

Lemma strip_token_l l :
  Forall (fun c => PyStr.isspace c = false) l -> PyStr.rstrip_l (PyStr.lstrip_l l) = l.
Proof.
  intros Hl. rewrite (lstrip_token l Hl). unfold PyStr.rstrip_l.
  rewrite lstrip_token; [apply rev_involutive|].
  by apply List.Forall_rev.
Qed.

Lemma strip_prefix_app p l : PyStr.strip_prefix p (p ++ l) = Some l.
Proof. induction p as [|a p IH]; simpl; [done|]. by rewrite Ascii.eqb_refl. Qed.

(** No match of the label starts inside a token: the label has a space. *)
Lemma match_len_token label l :
  (exists c, c ∈ label /\ PyStr.isspace c = true) ->
  Forall (fun c => PyStr.isspace c = false) l ->
  PyStr.match_len label l = None.
Proof.
  intros (sp & Hin & Hsp) Hl. unfold PyStr.match_len. rewrite (lstrip_token l Hl).
  destruct (PyStr.strip_prefix label l) eqn:E; [|done]. exfalso.
  revert l Hl E. induction label as [|a label IH]; intros l Hl E.
  - by apply elem_of_nil in Hin.
  - destruct l as [|b l]; simpl in E; [discriminate|].
    destruct (Ascii.eqb a b) eqn:Eab; [|discriminate].
    apply Ascii.eqb_eq in Eab. subst b.
    apply Forall_cons in Hl as [Ha Hl].
    apply elem_of_cons in Hin as [->|Hin]; [congruence|].
    by eapply IH.
Qed.

Lemma re_sub_token label l :
  (exists c, c ∈ label /\ PyStr.isspace c = true) ->
  Forall (fun c => PyStr.isspace c = false) l ->
  PyStr.re_sub_aux label 0 l = l.
Proof.
  intros Hlab Hl. induction Hl as [|c l Hc Hl IH]; [done|].
  cbn [PyStr.re_sub_aux].
  rewrite (match_len_token label (c :: l) Hlab); [|by constructor].
  by rewrite IH.
Qed.

Lemma re_sub_skip label a b :
  PyStr.re_sub_aux label (length a) (a ++ b) = PyStr.re_sub_aux label 0 b.
Proof. induction a as [|c a IH]; simpl; [by destruct b|]. exact IH. Qed.

Lemma cmake_label_spaced : spaced_label cmake_label.
Proof.
  exists (list_ascii_of_string "cmake"), " "%char, (list_ascii_of_string "version"),
         "v"%char.
  repeat split; try reflexivity. simpl. by left.
Qed.

Lemma strip_prefix_blank label l :
  (exists c, c ∈ label /\ PyStr.isspace c = false) ->
  Forall (fun c => PyStr.isspace c = true) l ->
  PyStr.strip_prefix label l = None.
Proof.
  intros (c & Hin & Hc). revert l. induction label as [|a label IH]; intros l Hl.
  - by apply elem_of_nil in Hin.
  - destruct l as [|b l]; simpl; [done|].
    destruct (Ascii.eqb a b) eqn:Eab; [|done].
    apply Ascii.eqb_eq in Eab. subst b. apply Forall_cons in Hl as [Ha Hl].
    apply elem_of_cons in Hin as [->|Hin]; [congruence|]. by apply IH.
Qed.

Lemma strip_prefix_token_blank label x trail :
  spaced_label label ->
  Forall (fun c => PyStr.isspace c = false) x ->
  Forall (fun c => PyStr.isspace c = true) trail ->
  PyStr.strip_prefix label (x ++ trail) = None.
Proof.
  intros Hlab Hx Htrail. revert label Hlab.
  induction Hx as [|b x Hb Hx IH]; intros label (l1 & sp & l2 & c & -> & Hsp & Hin & Hc).
  - simpl. apply strip_prefix_blank; [|done].
    exists c. split; [|done]. apply elem_of_app. right. by right.
  - destruct l1 as [|a l1]; simpl.
    + destruct (Ascii.eqb sp b) eqn:E; [|done].
      apply Ascii.eqb_eq in E. congruence.
    + destruct (Ascii.eqb a b); [|done]. apply IH.
      by exists l1, sp, l2, c.
Qed.

Lemma spaced_label_nonempty label : spaced_label label -> label <> [].
Proof. intros (l1 & sp & l2 & c & -> & _). by destruct l1. Qed.

Lemma lstrip_blank l :
  Forall (fun c => PyStr.isspace c = true) l -> PyStr.lstrip_l l = [].
Proof. induction 1 as [|c l Hc _ IH]; simpl; [done|]. by rewrite Hc. Qed.

Lemma match_len_blank label l :
  label <> [] ->
  Forall (fun c => PyStr.isspace c = true) l ->
  PyStr.match_len label l = None.
Proof.
  intros Hlab Hl. unfold PyStr.match_len. rewrite (lstrip_blank l Hl).
  by destruct label.
Qed.

(** Nothing is removed from a token followed by white space. *)
Lemma re_sub_token_blank label x trail :
  spaced_label label ->
  Forall (fun c => PyStr.isspace c = false) x ->
  Forall (fun c => PyStr.isspace c = true) trail ->
  PyStr.re_sub_aux label 0 (x ++ trail) = x ++ trail.
Proof.
  intros Hlab Hx Htrail. induction Hx as [|b x Hb Hx IH].
  - simpl. induction Htrail as [|t trail Ht Htrail IHt]; [done|].
    cbn [PyStr.re_sub_aux].
    rewrite match_len_blank; [|by apply spaced_label_nonempty|by constructor].
    by rewrite IHt.
  - change ((b :: x) ++ trail) with (b :: (x ++ trail)).
    cbn [PyStr.re_sub_aux]. unfold PyStr.match_len.
    assert (PyStr.lstrip_l (b :: x ++ trail) = b :: x ++ trail) as ->
      by (simpl; by rewrite Hb).
    change (b :: x ++ trail) with ((b :: x) ++ trail) at 1.
    rewrite strip_prefix_token_blank; [|done|by constructor|done].
    by rewrite IH.
Qed.

Lemma strip_token_blank x trail :
  Forall (fun c => PyStr.isspace c = false) x ->
  Forall (fun c => PyStr.isspace c = true) trail ->
  PyStr.rstrip_l (PyStr.lstrip_l (x ++ trail)) = x.
Proof.
  intros Hx Htrail. destruct Hx as [|b x Hb Hx].
  - simpl. by rewrite lstrip_blank.
  - assert (PyStr.lstrip_l ((b :: x) ++ trail) = (b :: x) ++ trail) as ->
      by (simpl; by rewrite Hb).
    unfold PyStr.rstrip_l. rewrite rev_app_distr.
    rewrite lstrip_blank_app by (by apply List.Forall_rev).
    rewrite lstrip_token; [apply rev_involutive|].
    apply List.Forall_rev. by constructor.
Qed.

(** The first match found at the head of the line is dropped whole. *)
Lemma re_sub_first_match label a r :
  a <> [] ->
  PyStr.match_len label (a ++ r) = Some (length a) ->
  PyStr.re_sub_aux label 0 (a ++ r) = PyStr.re_sub_aux label 0 r.
Proof.
  intros Ha Hm. destruct a as [|c a]; [done|].
  change ((c :: a) ++ r) with (c :: (a ++ r)) in *.
  cbn [PyStr.re_sub_aux]. rewrite Hm. simpl. apply re_sub_skip.
Qed.

Lemma list_ascii_of_string_app (a b : string) :
  list_ascii_of_string (a +:+ b) = list_ascii_of_string a ++ list_ascii_of_string b.
Proof.
  induction a as [|c a IH]; [reflexivity|].
  change (c :: list_ascii_of_string (a +:+ b)
          = c :: (list_ascii_of_string a ++ list_ascii_of_string b)).
  by rewrite IH.
Qed.

(** The line [lead LABEL gap v trail] reads as [v]. *)
Lemma read_version_line label lead gap v trail :
  spaced_label label ->
  (forall rest, PyStr.lstrip_l (label ++ rest) = label ++ rest) ->
  Forall (fun c => PyStr.isspace c = true) lead ->
  Forall (fun c => PyStr.isspace c = true) gap ->
  Forall (fun c => PyStr.isspace c = false) v ->
  Forall (fun c => PyStr.isspace c = true) trail ->
  PyStr.rstrip_l
    (PyStr.lstrip_l
       (PyStr.re_sub_aux label 0 (lead ++ label ++ gap ++ v ++ trail)))
  = v.
Proof.
  intros Hlab Hhead Hlead Hgap Hv Htrail.
  assert (Hne : lead ++ label ++ gap <> []).
  { intros E. apply app_eq_nil in E as [_ E]. apply app_eq_nil in E as [E _].
    by apply spaced_label_nonempty in Hlab. }
  assert (Hstrip : PyStr.lstrip_l (lead ++ label ++ gap ++ v ++ trail)
                   = label ++ gap ++ v ++ trail)
    by (by rewrite lstrip_blank_app, Hhead).
  destruct v as [|b v].
  - (* no token at all: the match runs to the end of the line *)
    change ([] ++ trail) with trail in *.
    replace (lead ++ label ++ gap ++ trail)
      with ((lead ++ label ++ gap ++ trail) ++ []) by apply app_nil_r.
    rewrite re_sub_first_match; [reflexivity| |].
    + intros E. apply Hne. apply app_eq_nil in E as [-> E].
      apply app_eq_nil in E as [-> E]. by apply app_eq_nil in E as [-> _].
    + unfold PyStr.match_len. rewrite app_nil_r, Hstrip, strip_prefix_app.
      rewrite lstrip_blank by (by apply Forall_app). simpl. f_equal. lia.
  - replace (lead ++ label ++ gap ++ (b :: v) ++ trail)
      with ((lead ++ label ++ gap) ++ (b :: v) ++ trail)
      by (by rewrite <- !app_assoc).
    rewrite re_sub_first_match.
    + rewrite re_sub_token_blank by done.
      by apply strip_token_blank.
    + exact Hne.
    + unfold PyStr.match_len.
      replace ((lead ++ label ++ gap) ++ (b :: v) ++ trail)
        with (lead ++ label ++ gap ++ (b :: v) ++ trail)
        by (by rewrite <- !app_assoc).
      rewrite Hstrip, strip_prefix_app, lstrip_blank_app by done.
      assert (PyStr.lstrip_l ((b :: v) ++ trail) = (b :: v) ++ trail) as ->.
      { apply Forall_cons in Hv as [Hb _]. simpl. by rewrite Hb. }
      f_equal. rewrite !length_app. lia.
Qed.

Section ReadVersion.

Context {H : Host}.

(** X2.  The version gate reads the version off the first line of the
    output: when the candidate is found, its version query exits with 0 and
    the first line is the label "cmake version" (white space, if any,
    before and after it), a token without white space, and trailing white
    space if any (a carriage return, say), [check_cmake] returns exactly
    that token. *)
Theorem check_cmake_reads_version p w out err f lead gap v trail :
  ExternalProgram.found p = true ->
  Popen_safe (ExternalProgram.get_command p ++ ["--version"]) None None
             (outside (emit (EvPopen (ExternalProgram.get_command p ++ ["--version"])
                                     None None) w))
  = Completed 0 out err f ->
  PyStr.first_line out = lead +:+ "cmake version" +:+ gap +:+ v +:+ trail ->
  blank lead -> blank gap -> token v -> blank trail ->
  fst (check_cmake p w) = Ret (Some v).
Proof.
  intros Hfound Hrun Hline Hlead Hgap Hv Htrail.
  unfold check_cmake, bind, attempt, popen. rewrite Hfound. simpl.
  rewrite Hrun. simpl. do 2 f_equal.
  unfold PyStr.strip, PyStr.re_sub_label. rewrite Hline.
  rewrite list_ascii_of_string_of_list_ascii.
  rewrite !list_ascii_of_string_app. fold cmake_label.
  rewrite read_version_line; try done.
  - apply string_of_list_ascii_of_string.
  - apply cmake_label_spaced.
Qed.

End ReadVersion.

#[global] Instance cache_grows_preorder : PreOrder cache_grows.
Proof.
  split.
  - intros w k r Hk. exact Hk.
  - intros a b c Hab Hbc k r Hk. apply Hbc, Hab, Hk.
Qed.

Lemma same_cache_grows {A} (c : M A) :
  preserves same_cache c -> preserves cache_grows c.
Proof. intros Hc w k r Hk. specialize (Hc w). unfold same_cache in Hc. by rewrite Hc. Qed.

#[global] Instance Unresolved_dec w m : Decision (Unresolved w m).
Proof. unfold Unresolved. apply _. Defined.

Section MoreDiscovery.

Context {H : Host}.

(** [find_cmake_binary] never hands back [None] as the program. *)
Lemma find_cmake_binary_not_none self e silent w b vo w' :
  find_cmake_binary self e silent w = (Ret (b, vo), w') -> b <> BinNone.
Proof.
  intros E Hb. subst b.
  destruct (decide (Unresolved w (for_machine self))) as [Hun|Hres].
  - destruct (find_cmake_binary_first _ _ _ _ _ _ Hun E)
      as (cands & w0 & o & w1 & _ & _ & Hrec & Hpair).
    destruct o as [[p v]|]; simpl in Hrec;
      unfold Resolved, ConfirmedAbsent in Hrec; rewrite <- Hpair in Hrec; discriminate.
  - rewrite (find_cmake_binary_cached self e silent w Hres) in E.
    apply Hres. unfold Unresolved, record in *. by simplify_eq.
Qed.

(** X3.  What a construction that returns has built.  The executor carries
    the arguments it was given.  Either it is found, and then it holds a
    program object and a version string, that version satisfies the
    caller's minimum, and program and version are the Resolved record of
    its role; or it is not found, and then the record of its role holds
    [False].  A construction never returns an executor whose program is
    below the minimum, and never one holding [False]. *)
Theorem init_returns e v m silent w self w' :
  __init__ e v m silent w = (Ret self, w') ->
  min_version self = v /\ environment self = e /\ machine_choice self = m
  /\ ((found self = true
       /\ exists p ver,
           cmakebin self = BinProg p /\ version self = Some ver
           /\ Version.version_compare ver v = true
           /\ Resolved w' m p ver)
      \/ (found self = false
          /\ cmakebin self = BinNone
          /\ per_get (class_cmakebin w') m = BinFalse
          /\ version self = per_get (class_cmakevers w') m)).
Proof.
  intros E.
  pose proof (init_world e v m silent w) as Hw. rewrite E in Hw. simpl in Hw.
  destruct (find_cmake_binary (mkExecutor v e m BinNone None) e silent w)
    as [[[b vo]|ex] w1] eqn:Ef; simpl in Hw; subst w1.
  - pose proof (find_cmake_binary_returns_record _ _ _ _ _ _ Ef) as Hrec. simpl in Hrec.
    pose proof (find_cmake_binary_not_none _ _ _ _ _ _ _ Ef) as Hb.
    destruct b as [| |p]; [done| |].
    + rewrite (init_absent _ _ _ _ _ _ _ Ef) in E. simplify_eq.
      repeat split; try done. right. unfold record in Hrec. simplify_eq.
      repeat split; try done.
    + destruct vo as [ver|].
      * destruct (Version.version_compare ver v) eqn:Hv.
        -- rewrite (init_version_ok _ _ _ _ _ _ _ _ Ef Hv) in E. simplify_eq.
           repeat split; try done. left. split; [done|]. by exists p, ver.
        -- rewrite (init_version_too_old _ _ _ _ _ _ _ _ Ef Hv) in E. discriminate.
      * unfold __init__, bind in E. rewrite Ef in E. discriminate.
  - rewrite (init_find_raises _ _ _ _ _ _ _ Ef) in E. discriminate.
Qed.

(** X9.  A discovery that ends in an exception records nothing: the role
    was Unresolved and still is, both class attributes are as before, and
    the construction raises the same exception; the next construction for
    the role searches again. *)
Theorem failed_discovery_is_not_recorded e v m silent w ex w' :
  find_cmake_binary (mkExecutor v e m BinNone None) e silent w = (Raise ex, w') ->
  Unresolved w m /\ Unresolved w' m /\ same_class w w'
  /\ __init__ e v m silent w = (Raise ex, w').
Proof.
  intros E.
  pose proof (find_cmake_binary_returns_record _ _ _ _ _ _ E) as Hsame. simpl in Hsame.
  assert (Unresolved w m) as Hun.
  { destruct (decide (Unresolved w m)) as [Hun|Hres]; [done|].
    rewrite (find_cmake_binary_cached (mkExecutor v e m BinNone None) e silent w Hres)
      in E. discriminate. }
  split; [exact Hun|]. split; [|split; [exact Hsame|by apply init_find_raises]].
  destruct Hsame as [Hb _]. unfold Unresolved in *. by rewrite Hb.
Qed.

(** X6.  A role that is not the build machine and has no explicit entry is
    never searched among the defaults, whatever [default_cmake] lists: the
    first construction looks the entry up, builds and launches nothing,
    stores ConfirmedAbsent and returns an executor that is not found. *)
Theorem cross_role_without_entry_is_absent e v m silent w :
  Unresolved w m ->
  lookup_entry e m = None ->
  matches_build_machine e m = false ->
  exists w',
    __init__ e v m silent w = (Ret (mkExecutor v e m BinNone None), w')
    /\ ConfirmedAbsent w' m
    /\ new_events w w'
       = EvLookupEntry m :: (if silent then [] else [EvLog LogFoundNO]).
Proof.
  intros Hun Hlook Hbuild.
  assert (exists w',
             find_cmake_binary (mkExecutor v e m BinNone None) e silent w
             = (Ret (BinFalse, None), w')
             /\ ConfirmedAbsent w' m
             /\ new_events w w'
                = EvLookupEntry m :: (if silent then [] else [EvLog LogFoundNO]))
    as (w' & Ef & Habs & Hev).
  { unfold find_cmake_binary, bind, gets, Unresolved in *. simpl. rewrite Hun.
    unfold search, bind, modify, ret. simpl. rewrite Hlook, Hbuild. simpl.
    unfold bind, mlog_log, modify, ret.
    destruct silent; simpl; rewrite !per_get_set_eq; eexists; (split; [reflexivity|]);
      (split; [unfold ConfirmedAbsent, record; simpl; by destruct m|]);
      unfold new_events; simpl; rewrite <- ?app_assoc; by rewrite drop_app_length. }
  exists w'. split; [|done]. by apply init_absent.
Qed.

(** Probing stops at the first accepted candidate: what comes after it in
    the list is never looked at. *)
Lemma probe_candidates_stops m silent cands extra : forall w w' p,
  probe_candidates m silent cands w = (Ret tt, w') ->
  per_get (class_cmakebin w') m = BinProg p ->
  probe_candidates m silent (cands ++ extra) w = (Ret tt, w').
Proof.
  induction cands as [|c rest IH]; intros w w' p E Hp.
  - exfalso. simpl in E. unfold bind, mlog_log, modify, ret in E.
    destruct silent; simpl in E; simplify_eq; simpl in Hp;
      rewrite per_get_set_eq in Hp; discriminate.
  - simpl in *. unfold bind in *.
    destruct (materialize c w) as [[q|ex] w1]; [|discriminate].
    destruct (check_cmake q w1) as [[vo|ex] w2]; [|discriminate].
    destruct (falsy vo); [by eapply IH|exact E].
Qed.

(** X7.  The default candidates after the first accepted one play no part.
    When a discovery over the defaults of [e] ends with a program, the same
    discovery over an environment that lists further defaults after them
    ends in the same world with the same record: not one more object is
    built, not one more process launched. *)
Theorem later_defaults_are_never_probed self e extra silent w p vo w' :
  lookup_entry e (for_machine self) = None ->
  find_cmake_binary self e silent w = (Ret (BinProg p, vo), w') ->
  find_cmake_binary self
    (mkEnvironment (lookup_entry e) (matches_build_machine e) (default_cmake e ++ extra))
    silent w
  = (Ret (BinProg p, vo), w').
Proof.
  intros Hlook E.
  destruct (decide (Unresolved w (for_machine self))) as [Hun|Hres].
  - pose proof (find_cmake_binary_returns_record _ _ _ _ _ _ E) as Hrec. simpl in Hrec.
    unfold find_cmake_binary, bind, gets, Unresolved in *. rewrite Hun in *.
    unfold search, bind, modify, ret in *. simpl in *. rewrite Hlook in *.
    destruct (matches_build_machine e (for_machine self)).
    + rewrite map_app.
      destruct (probe_candidates (for_machine self) silent
                  (map CandDefault (default_cmake e)) _) as [[[]|ex] w1] eqn:Ep;
        [|discriminate].
      simpl in E. injection E as Hslot Hvers <-. 
      erewrite probe_candidates_stops; [|exact Ep|exact Hslot].
      simpl. by rewrite Hslot, Hvers.
    + exact E.
  - rewrite (find_cmake_binary_cached self e silent w Hres) in E.
    rewrite (find_cmake_binary_cached self _ silent w Hres). exact E.
Qed.

End MoreDiscovery.

Section MoreInvocation.

Context {H : Host}.

(** X4.  An executor that is not found cannot be run.  [executable_path]
    and [get_command] raise AttributeError; so does [call] whenever it has
    to run the program (cache bypassed, or key not cached), but only after
    it has created the build directory: the directory creation is the one
    event, no process is launched and nothing is cached. *)
Theorem not_found_executor_cannot_run self args d env disable w :
  found self = false ->
  executable_path self w = (Raise AttributeError, w)
  /\ get_command self w = (Raise AttributeError, w)
  /\ (fst (makedirs d w) = Ret tt ->
      disable = true
      \/ class_cmake_cache w !! _cache_key self args d (Some (ambient_or env w)) = None ->
      fst (call self args d env disable w) = Raise AttributeError
      /\ new_events w (snd (call self args d env disable w)) = [EvMakedirs d]
      /\ class_cmake_cache (snd (call self args d env disable w))
         = class_cmake_cache w).
Proof.
  intros Hnf.
  assert (cmakebin self = BinNone) as Hbin.
  { unfold found in Hnf. apply negb_false_iff in Hnf. by apply bool_decide_eq_true in Hnf. }
  unfold executable_path, get_command. rewrite Hbin. simpl.
  split; [done|]. split; [done|]. intros Hmk Hrun.
  assert (Hreal : forall e0,
             fst (_call_real self args d e0 w) = Raise AttributeError
             /\ new_events w (snd (_call_real self args d e0 w)) = [EvMakedirs d]
             /\ class_cmake_cache (snd (_call_real self args d e0 w))
                = class_cmake_cache w).
  { intros e0. unfold _call_real, bind. rewrite Hbin.
    pose proof (makedirs_trace d w) as Ht.
    pose proof (makedirs_same_cache d w) as Hc.
    destruct (makedirs d w) as [[[]|ex] w1]; simpl in *; [|discriminate].
    split; [done|]. split; [by apply new_events_app|exact Hc]. }
  destruct disable.
  - rewrite call_bypass. apply Hreal.
  - destruct Hrun as [Hd|Hmiss]; [discriminate|].
    assert (Eenv : (match env with None => gets os_environ | Some e0 => ret e0 end) w
                   = (Ret (ambient_or env w), w)) by (by destruct env).
    destruct (Hreal (ambient_or env w)) as (Hr & Hev & Hc).
    assert (call self args d env false w
            = (Raise AttributeError, snd (_call_real self args d (ambient_or env w) w)))
      as ->.
    { unfold call, bind. rewrite Eenv. unfold gets at 1. rewrite Hmiss.
      destruct (_call_real self args d (ambient_or env w) w) as [[r|ex] w1];
        simpl in *; [discriminate|]. by simplify_eq. }
    done.
Qed.

Lemma call_cache_grows self args d env disable :
  preserves cache_grows (call self args d env disable).
Proof.
  intros w k r Hk.
  destruct disable.
  - pose proof (call_real_same_cache self args d (ambient_or env w) w) as Hc.
    rewrite call_bypass. unfold same_cache in Hc. by rewrite Hc.
  - set (key := _cache_key self args d (Some (ambient_or env w))).
    destruct (call self args d env false w) as [[r1|ex] w1] eqn:E; simpl.
    + destruct (call_returns _ _ _ _ _ _ _ E) as (_ & _ & Hcase). fold key in Hcase.
      destruct (class_cmake_cache w !! key) eqn:Ekey.
      * by destruct Hcase as [_ ->].
      * destruct Hcase as [-> _]. rewrite lookup_insert_ne; [done|].
        intros <-. congruence.
    + (* the call raised: nothing was stored *)
      assert (Eenv : (match env with None => gets os_environ | Some e0 => ret e0 end) w
                     = (Ret (ambient_or env w), w)) by (by destruct env).
      unfold call, bind in E. rewrite Eenv in E. unfold gets at 1 in E. fold key in E.
      destruct (class_cmake_cache w !! key) eqn:Ekey.
      * unfold ret, gets in E. rewrite Ekey in E. discriminate.
      * pose proof (call_real_same_cache self args d (ambient_or env w) w) as Hc.
        destruct (_call_real self args d (ambient_or env w) w) as [[r1|ex1] w2];
          simpl in *.
        -- unfold modify, gets in E. simpl in E. rewrite lookup_insert_eq in E.
           discriminate.
        -- simplify_eq. unfold same_cache in Hc. by rewrite Hc.
Qed.

Lemma call_with_fake_build_cache_grows self args d env :
  preserves cache_grows (call_with_fake_build self args d env).
Proof.
  unfold call_with_fake_build.
  frame; try (apply call_cache_grows); apply same_cache_grows; eauto with frames.
Qed.

Lemma run_op_cache_grows o w : cache_grows w (run_op o w).
Proof.
  destruct o as [e v m silent|self args d env dis|self args d env]; simpl.
  - apply (same_cache_grows _ (init_same_cache e v m silent)).
  - apply call_cache_grows.
  - apply call_with_fake_build_cache_grows.
Qed.

(** X5.  The invocation cache is write-once: whatever constructions and
    calls follow, with whatever arguments, and whether they return or
    raise, an entry that is in the cache stays there with the same triple;
    nothing is ever overwritten or dropped. *)
Theorem cache_entries_are_never_replaced ops : forall w k r,
  class_cmake_cache w !! k = Some r ->
  class_cmake_cache (run_ops ops w) !! k = Some r.
Proof.
  induction ops as [|o ops IH]; intros w k r Hk; [exact Hk|].
  simpl. fold (run_ops ops (run_op o w)). apply IH. by apply run_op_cache_grows.
Qed.

(** X8.  Executors of one role share their program and their cached
    results.  When two constructions for the same role, with whatever
    environments and minimum versions, both return a found executor, the
    second leaves the world as it is, both hold the same program object and
    version, their invocation keys coincide, and what a call through the
    first one returned is a hit for the same call through the second. *)
Theorem executors_of_a_role_share_the_cache e1 e2 v1 v2 m s1 s2 w x1 w1 x2 w2 :
  __init__ e1 v1 m s1 w = (Ret x1, w1) ->
  __init__ e2 v2 m s2 w1 = (Ret x2, w2) ->
  found x1 = true -> found x2 = true ->
  w2 = w1
  /\ cmakebin x2 = cmakebin x1 /\ version x2 = version x1
  /\ (forall args d env, _cache_key x2 args d env = _cache_key x1 args d env)
  /\ (forall args d env wa r wb,
         call x1 args d env false wa = (Ret r, wb) ->
         call x2 args d env false wb = (Ret r, wb)).
Proof.
  intros E1 E2 Hf1 Hf2.
  destruct (init_returns _ _ _ _ _ _ _ E1) as (_ & _ & _ & [(_ & p1 & r1 & Hb1 & Hv1 & _ & Hr1)|(Hnf & _)]);
    [|congruence].
  destruct (init_returns _ _ _ _ _ _ _ E2) as (_ & _ & _ & [(_ & p2 & r2 & Hb2 & Hv2 & _ & Hr2)|(Hnf & _)]);
    [|congruence].
  assert (~ Unresolved w1 m) as Hres.
  { unfold Unresolved, Resolved, record in *. intros Hun. rewrite Hun in Hr1. discriminate. }
  assert (w2 = w1) as ->.
  { pose proof (init_cached e2 v2 m s2 w1 Hres) as Hw. by rewrite E2 in Hw. }
  unfold Resolved in *. rewrite Hr1 in Hr2. simplify_eq.
  assert (Hkey : forall args d env, _cache_key x2 args d env = _cache_key x1 args d env).
  { intros args d env. unfold _cache_key. by rewrite Hb1, Hb2. }
  repeat split; try done.
  - by rewrite Hb1, Hb2.
  - unfold version in *. by rewrite Hv1, Hv2.
  - intros args d env wa r wb Ecall.
    destruct (call_returns _ _ _ _ _ _ _ Ecall) as (Hhit & Henv & _).
    apply call_hit. rewrite Hkey.
    assert (ambient_or env wb = ambient_or env wa) as ->
      by (destruct env; [done|exact Henv]).
    exact Hhit.
Qed.

End MoreInvocation.

(** *** What [os.makedirs] can create *)

Lemma string_length_of_list l : String.length (string_of_list_ascii l) = length l.
Proof. induction l as [|c l IH]; simpl; [done|]. by rewrite IH. Qed.

Lemma length_list_of_string s : length (list_ascii_of_string s) = String.length s.
Proof. induction s as [|c s IH]; simpl; [done|]. by rewrite IH. Qed.

Lemma string_length_app (a b : string) :
  String.length (a +:+ b) = (String.length a + String.length b)%nat.
Proof.
  rewrite <- !length_list_of_string, list_ascii_of_string_app. apply length_app.
Qed.

(** Every directory of the chain is a path no longer than the one asked
    for. *)
Lemma dir_prefixes_length l : forall acc q,
  q ∈ dir_prefixes acc l -> (String.length q <= length acc + length l)%nat.
Proof.
  induction l as [|c l IH]; intros acc q Hq.
  - simpl in Hq. destruct acc as [|a acc]; [by apply elem_of_nil in Hq|].
    destruct (Ascii.eqb a "/"); [by apply elem_of_nil in Hq|].
    apply list_elem_of_singleton in Hq. subst q.
    rewrite string_length_of_list, length_rev. simpl. lia.
  - cbn [dir_prefixes] in Hq.
    assert (Hrec : q ∈ dir_prefixes (c :: acc) l ->
                   (String.length q <= length acc + length (c :: l))%nat).
    { intros Hin. apply IH in Hin. simpl in *. lia. }
    destruct (Ascii.eqb c "/"); [|by apply Hrec].
    apply elem_of_app in Hq as [Hq|Hq]; [|by apply Hrec].
    destruct acc as [|a acc]; [by apply elem_of_nil in Hq|].
    destruct (Ascii.eqb a "/"); [by apply elem_of_nil in Hq|].
    apply list_elem_of_singleton in Hq. subst q.
    rewrite string_length_of_list, length_rev. simpl. lia.
Qed.

Lemma mkdir_chain_other qs : forall f r f' p,
  p ∉ qs -> mkdir_chain qs f = (r, f') -> f' !! p = f !! p.
Proof.
  induction qs as [|q rest IH]; intros f r f' p Hp E; simpl in E.
  - by simplify_eq.
  - apply not_elem_of_cons in Hp as [Hne Hp].
    destruct (f !! q) as [[content|]|] eqn:Eq.
    + by simplify_eq.
    + eauto.
    + rewrite (IH _ _ _ _ Hp E). by rewrite lookup_insert_ne.
Qed.

(** [os.makedirs(d)] leaves every path longer than [d] as it is. *)
Lemma makedirs_longer_path d p w :
  (String.length d < String.length p)%nat ->
  fs (snd (makedirs d w)) !! p = fs w !! p.
Proof.
  intros Hlen. unfold makedirs.
  destruct (mkdir_chain _ _) as [r f] eqn:E. simpl.
  eapply mkdir_chain_other; [|exact E].
  intros Hin. apply dir_prefixes_length in Hin.
  rewrite length_list_of_string in Hin. simpl in Hin. lia.
Qed.

Lemma write_file_other q s p w :
  q <> p -> fs (snd (write_file q s w)) !! p = fs w !! p.
Proof.
  intros Hne. unfold write_file. simpl.
  destruct (fs w !! q) as [[|]|]; simpl; try done; by rewrite lookup_insert_ne.
Qed.

Lemma write_file_returns q s w w' :
  write_file q s w = (Ret tt, w') -> fs w' !! q = Some (File s).
Proof.
  unfold write_file. simpl.
  destruct (fs w !! q) as [[|]|]; intros E; simplify_eq; simpl;
    by rewrite lookup_insert_eq.
Qed.

Section Staging.

Context {H : Host}.

(** A stub that is missing is written when its turn comes. *)
Lemma guarded_write_creates q s w w' :
  fs w !! q = None ->
  bind (path_exists q) (fun there => if negb there then write_file q s else ret tt) w
  = (Ret tt, w') ->
  fs w' !! q = Some (File s).
Proof.
  intros Habs E. unfold bind, path_exists in E. simpl in E.
  rewrite bool_decide_eq_false_2 in E by (rewrite Habs; by intros [? ?]).
  simpl in E. by apply write_file_returns in E.
Qed.

Lemma guarded_write_other q s p w :
  q <> p ->
  fs (snd (bind (path_exists q)
                (fun there => if negb there then write_file q s else ret tt) w)) !! p
  = fs w !! p.
Proof.
  intros Hne. unfold bind, path_exists. simpl.
  destruct (negb _); simpl; [|done].
  pose proof (write_file_other q s p (emit (EvExists q) w) Hne) as Hw.
  by destruct (write_file q s (emit (EvExists q) w)) as [[[]|ex] w1].
Qed.

Lemma bind_assoc_eq {A B C} (m : M A) (g : A -> M B) (k : B -> M C) w :
  bind m (fun a => bind (g a) k) w = bind (bind m g) k w.
Proof.
  unfold bind. destruct (m w) as [[a|ex] w1]; [|done].
  by destruct (g a w1) as [[b|ex] w2].
Qed.

(** X10.  Staging a build directory.  When [call_with_fake_build] misses
    the cache and returns, and the launched process leaves files alone, the
    build directory holds the marker CMakeCache.txt with the fixed line,
    and each compiler stub that was missing before the call is now there
    with its stub text (for the C and for the C++ compiler), under the
    directory named after the executor's version. *)
Theorem fake_build_stages_the_directory self args d env w r w' :
  (forall p c, process_keeps p c) ->
  class_cmake_cache w !! _cache_key self args d env = None ->
  call_with_fake_build self args d env w = (Ret r, w') ->
  fs w' !! marker_path d = Some (File marker_text)
  /\ (fs w !! c_comp_path d (cmakevers self) = None ->
      fs w' !! c_comp_path d (cmakevers self) = Some (File c_stub))
  /\ (fs w !! cxx_comp_path d (cmakevers self) = None ->
      fs w' !! cxx_comp_path d (cmakevers self) = Some (File cxx_stub)).
Proof.
  intros Hproc Hmiss E.
  set (comp := d +:+ "/CMakeFiles/" +:+ format_opt (cmakevers self)).
  assert (Hlen_comp : (String.length d < String.length comp)%nat).
  { unfold comp. rewrite !string_length_app. simpl. lia. }
  assert (Hlen_c : (String.length comp < String.length (c_comp_path d (cmakevers self)))%nat).
  { unfold c_comp_path. fold comp. rewrite string_length_app. simpl. lia. }
  assert (Hlen_cxx : (String.length comp
                      < String.length (cxx_comp_path d (cmakevers self)))%nat).
  { unfold cxx_comp_path. fold comp. rewrite string_length_app. simpl. lia. }
  unfold call_with_fake_build in E.
  apply bind_returns in E as (cache & w0 & Eg & E). unfold gets in Eg. simplify_eq.
  rewrite Hmiss in E.
  apply bind_returns in E as ([] & w1 & E1 & E).
  apply bind_returns in E as ([] & w2 & E2 & E).
  apply bind_returns in E as ([] & w3 & E3 & E).
  fold (marker_path d) in E2. fold comp in E3, E.
  rewrite bind_assoc_eq in E.
  apply bind_returns in E as ([] & w5 & E5 & E).
  rewrite bind_assoc_eq in E.
  apply bind_returns in E as ([] & w7 & E7 & E).
  fold (c_comp_path d (cmakevers self)) in E5.
  fold (cxx_comp_path d (cmakevers self)) in E7.
  set (c_comp := c_comp_path d (cmakevers self)) in *.
  set (cxx_comp := cxx_comp_path d (cmakevers self)) in *.
  (* what each step leaves of the three paths *)
  assert (K3 : forall p c, keeps p c w2 w3).
  { intros p c. change w3 with (snd (Ret tt : res unit, w3)). rewrite <- E3.
    apply makedirs_keeps. }
  assert (K5 : forall p c, keeps p c w3 w5).
  { intros p c. change w5 with (snd (Ret tt : res unit, w5)). rewrite <- E5.
    apply guarded_write_keeps. }
  assert (K7 : forall p c, keeps p c w5 w7).
  { intros p c. change w7 with (snd (Ret tt : res unit, w7)). rewrite <- E7.
    apply guarded_write_keeps. }
  assert (K' : forall p c, keeps p c w7 w').
  { intros p c. change w' with (snd (Ret r, w')). rewrite <- E.
    by apply call_keeps. }
  assert (O1 : forall p, (String.length d < String.length p)%nat ->
                         fs w1 !! p = fs w0 !! p).
  { intros p Hp. change w1 with (snd (Ret tt : res unit, w1)). rewrite <- E1.
    by apply makedirs_longer_path. }
  assert (O2 : forall p, marker_path d <> p -> fs w2 !! p = fs w1 !! p).
  { intros p Hp. change w2 with (snd (Ret tt : res unit, w2)). rewrite <- E2.
    by apply write_file_other. }
  assert (O3 : forall p, (String.length comp < String.length p)%nat ->
                         fs w3 !! p = fs w2 !! p).
  { intros p Hp. change w3 with (snd (Ret tt : res unit, w3)). rewrite <- E3.
    by apply makedirs_longer_path. }
  assert (O5 : forall p, c_comp <> p -> fs w5 !! p = fs w3 !! p).
  { intros p Hp. change w5 with (snd (Ret tt : res unit, w5)). rewrite <- E5.
    by apply guarded_write_other. }
  split; [|split].
  - apply K', K7, K5, K3. by apply write_file_returns in E2.
  - intros Habs. apply K', K7.
    apply (guarded_write_creates c_comp c_stub w3 w5); [|exact E5].
    rewrite O3, O2, O1; [exact Habs|lia|apply marker_not_c_comp|exact Hlen_c].
  - intros Habs. apply K'.
    apply (guarded_write_creates cxx_comp cxx_stub w5 w7); [|exact E7].
    rewrite O5, O3, O2, O1;
      [exact Habs|lia|apply marker_not_cxx_comp|exact Hlen_cxx
      |apply c_comp_not_cxx_comp].
Qed.

End Staging.

Section Silent.

Context {H : Host}.

Lemma probe_candidates_silent m cands : forall w r w2,
  probe_candidates m false cands w = (r, w2) ->
  exists w1 tail,
    probe_candidates m true cands w = (r, w1)
    /\ w2 = set_trace (trace w1 ++ tail) w1
    /\ match r with
       | Ret _ => exists ev, tail = [ev] /\ is_summary ev
       | Raise _ => tail = []
       end.
Proof.
  induction cands as [|c rest IH]; intros w r w2 E.
  - simpl in *. unfold bind, mlog_log, modify, ret in *. simpl in *. simplify_eq.
    eexists _, [EvLog LogFoundNO]. split; [reflexivity|]. split; [reflexivity|].
    eexists. split; [reflexivity|by left].
  - simpl in *. unfold bind in *.
    destruct (materialize c w) as [[p|ex] w0].
    + destruct (check_cmake p w0) as [[vo|ex] w3].
      * destruct (falsy vo) eqn:Ef; [by apply IH|].
        unfold mlog_log, modify, ret in *. simpl in *. simplify_eq.
        eexists _, [EvLog _]. split; [reflexivity|]. split; [reflexivity|].
        eexists. split; [reflexivity|]. right. by eexists _, _.
      * simplify_eq. exists w2, []. split; [done|]. split; [|done].
        destruct w2. unfold set_trace. simpl. by rewrite app_nil_r.
    + simplify_eq. exists w2, []. split; [done|]. split; [|done].
      destruct w2. unfold set_trace. simpl. by rewrite app_nil_r.
Qed.

(** X11.  What [silent] changes.  A first search run with [silent] set and
    the same search run without it return the same result and build and
    launch the same things; the worlds they leave differ only in the trace,
    and there only by the one summary line ("Found CMake: ..." or "Found
    CMake: NO") that the verbose run adds at its end.  The lines and
    warnings of the version gate itself are written either way. *)
Theorem silent_holds_back_the_summary_only self e w r w2 :
  Unresolved w (for_machine self) ->
  find_cmake_binary self e false w = (r, w2) ->
  exists w1 tail,
    find_cmake_binary self e true w = (r, w1)
    /\ w2 = set_trace (trace w1 ++ tail) w1
    /\ match r with
       | Ret _ => exists ev, tail = [ev] /\ is_summary ev
       | Raise _ => tail = []
       end.
Proof.
  intros Hun E. unfold find_cmake_binary, bind, gets, Unresolved in *.
  rewrite Hun in *.
  destruct (search e (for_machine self) w) as [[cands|ex] w0].
  - destruct (probe_candidates (for_machine self) false cands w0) as [rp wp] eqn:Ep.
    destruct (probe_candidates_silent _ _ _ _ _ Ep) as (w1 & tail & -> & -> & Htail).
    destruct rp as [[]|ex]; simpl in *; simplify_eq.
    + exists w1, tail. by repeat split.
    + exists w1, []. repeat split; try done.
  - simplify_eq. exists w2, []. split; [done|]. split; [|done].
    destruct w2. unfold set_trace. simpl. by rewrite app_nil_r.
Qed.

End Silent.

Section Launch.

Context {H : Host}.

(** X12.  When the build directory cannot be created, nothing else is
    attempted: [call] (when it has to run the program) and
    [call_with_fake_build] (when its look-up misses) raise the exception of
    [os.makedirs], the attempt to create the directory is their only event
    (no marker or stub is written, no process launched), and the invocation
    cache is as before. *)
Theorem build_directory_failure_stops_the_call self args d env ex w :
  fst (makedirs d w) = Raise ex ->
  (forall disable,
      disable = true
      \/ class_cmake_cache w !! _cache_key self args d (Some (ambient_or env w)) = None ->
      fst (call self args d env disable w) = Raise ex
      /\ new_events w (snd (call self args d env disable w)) = [EvMakedirs d]
      /\ class_cmake_cache (snd (call self args d env disable w)) = class_cmake_cache w)
  /\ (class_cmake_cache w !! _cache_key self args d env = None ->
      fst (call_with_fake_build self args d env w) = Raise ex
      /\ new_events w (snd (call_with_fake_build self args d env w)) = [EvMakedirs d]
      /\ class_cmake_cache (snd (call_with_fake_build self args d env w))
         = class_cmake_cache w).
Proof.
  intros Hmk.
  pose proof (makedirs_trace d w) as Ht.
  pose proof (makedirs_same_cache d w) as Hc. unfold same_cache in Hc.
  assert (Hreal : forall e0, _call_real self args d e0 w = (Raise ex, snd (makedirs d w))).
  { intros e0. unfold _call_real, bind.
    destruct (makedirs d w) as [[[]|ex1] w1]; simpl in *; [discriminate|by simplify_eq]. }
  split.
  - intros disable Hrun.
    assert (call self args d env disable w = (Raise ex, snd (makedirs d w))) as ->.
    { destruct disable.
      - rewrite call_bypass. apply Hreal.
      - destruct Hrun as [Hd|Hmiss]; [discriminate|].
        assert (Eenv : (match env with None => gets os_environ | Some e0 => ret e0 end) w
                       = (Ret (ambient_or env w), w)) by (by destruct env).
        unfold call, bind. rewrite Eenv. unfold gets at 1. rewrite Hmiss.
        by rewrite Hreal. }
    simpl. split; [done|]. split; [by apply new_events_app|exact Hc].
  - intros Hmiss.
    assert (call_with_fake_build self args d env w = (Raise ex, snd (makedirs d w))) as ->.
    { unfold call_with_fake_build. unfold bind at 1. unfold gets at 1. rewrite Hmiss.
      unfold bind at 1.
      destruct (makedirs d w) as [[[]|ex1] w1]; simpl in *; [discriminate|by simplify_eq]. }
    simpl. split; [done|]. split; [by apply new_events_app|exact Hc].
Qed.

(** X13.  How the program is launched.  A [call] that runs the program
    (cache bypassed, or key not cached) and returns has done two things, in
    this order: created the build directory, and launched the program's
    command followed by the arguments, in the build directory, with the
    environment given or, when none was given, with the items of
    [os.environ] passed explicitly.  The triple returned is the one the
    process handed back, and the files are as the process left them. *)
Theorem call_launches_the_command self args d env disable w r w' :
  disable = true
  \/ class_cmake_cache w !! _cache_key self args d (Some (ambient_or env w)) = None ->
  call self args d env disable w = (Ret r, w') ->
  exists p,
    cmakebin self = BinProg p
    /\ let launch := EvPopen (ExternalProgram.get_command p ++ args)
                             (Some (ambient_or env w)) (Some d) in
       new_events w w' = [EvMakedirs d; launch]
       /\ Popen_safe (ExternalProgram.get_command p ++ args) (Some (ambient_or env w))
                     (Some d) (outside (emit launch (snd (makedirs d w))))
          = Completed (fst (fst r)) (snd (fst r)) (snd r) (fs w').
Proof.
  intros Hrun E.
  assert (exists w1, _call_real self args d (ambient_or env w) w = (Ret r, w1)
                     /\ trace w' = trace w1 /\ fs w' = fs w1) as (w1 & Er & Ht & Hf).
  { destruct disable.
    - rewrite call_bypass in E. by exists w'.
    - destruct Hrun as [Hd|Hmiss]; [discriminate|].
      assert (Eenv : (match env with None => gets os_environ | Some e0 => ret e0 end) w
                     = (Ret (ambient_or env w), w)) by (by destruct env).
      unfold call, bind in E. rewrite Eenv in E. unfold gets at 1 in E. rewrite Hmiss in E.
      destruct (_call_real self args d (ambient_or env w) w) as [[r1|ex] w1];
        [|discriminate].
      unfold modify, gets, ret in E. simpl in E. rewrite lookup_insert_eq in E.
      simplify_eq. by exists w1. }
  unfold _call_real, bind, bin_get_command, popen, ret, raise in Er.
  destruct (makedirs d w) as [[[]|ex] wm] eqn:Em; [|discriminate].
  pose proof (makedirs_trace d w) as Htm. rewrite Em in Htm. simpl in Htm.
  destruct (cmakebin self) as [| |p]; try discriminate.
  exists p. split; [done|]. simpl.
  destruct (Popen_safe _ _ _ _) as [rc out err f|ex] eqn:Ep; [|discriminate].
  simplify_eq. simpl in *. split.
  - apply new_events_app. rewrite Ht. simpl. rewrite Htm. by rewrite <- app_assoc.
  - by rewrite Hf.
Qed.

End Launch.

(* ===================================================================== *)
(** ** The further theorems at work on the concrete host *)
(* ===================================================================== *)

(** X1 on the demo machine: the accepted candidate was launched once and
    nothing was logged. *)
Lemma check_cmake_outcomes_at_demo :
  ExternalProgram.found DemoRun.cmake = true
  /\ new_events Demo.w0 (snd (check_cmake (H := Demo.host) DemoRun.cmake Demo.w0))
     = [EvPopen (ExternalProgram.get_command DemoRun.cmake ++ ["--version"]) None None].
Proof.
  pose (run := check_cmake (H := Demo.host) DemoRun.cmake Demo.w0).
  assert (E : check_cmake (H := Demo.host) DemoRun.cmake Demo.w0
              = (Ret (Some "3.9.0"), snd run)).
  { transitivity (fst run, snd run); [apply surjective_pairing|].
    f_equal; try (vm_compute; reflexivity). }
  exact (check_cmake_outcomes (H := Demo.host) DemoRun.cmake Demo.w0 _ _ E).
Defined.

(** X2 on the demo machine: the banner reads as 3.9.0. *)
Lemma check_cmake_reads_version_at_demo :
  fst (check_cmake (H := Demo.host) DemoRun.cmake Demo.w0) = Ret (Some "3.9.0").
Proof.
  apply (check_cmake_reads_version (H := Demo.host) DemoRun.cmake Demo.w0
           Demo.banner "" (fs Demo.w0) "" " " "3.9.0" "").
  - reflexivity.
  - reflexivity.
  - reflexivity.
  - constructor.
  - repeat constructor.
  - repeat constructor.
  - constructor.
Defined.

(** X3 on the demo machine: the executor of a caller asking for 3.4. *)
Lemma init_returns_at_demo :
  let run := __init__ (H := Demo.host) Demo.env "3.4" BUILD false Demo.w0 in
  min_version DemoRun.exec = "3.4" /\ environment DemoRun.exec = Demo.env
  /\ machine_choice DemoRun.exec = BUILD
  /\ ((found DemoRun.exec = true
       /\ exists p ver,
           cmakebin DemoRun.exec = BinProg p /\ version DemoRun.exec = Some ver
           /\ Version.version_compare ver "3.4" = true
           /\ Resolved (snd run) BUILD p ver)
      \/ (found DemoRun.exec = false
          /\ cmakebin DemoRun.exec = BinNone
          /\ per_get (class_cmakebin (snd run)) BUILD = BinFalse
          /\ version DemoRun.exec = per_get (class_cmakevers (snd run)) BUILD)).
Proof.
  intros run.
  apply (init_returns (H := Demo.host) Demo.env "3.4" BUILD false Demo.w0).
  transitivity (fst run, snd run); [apply surjective_pairing|].
  f_equal; try (vm_compute; reflexivity).
Defined.

(** X4 on the demo machine: an executor that is not found is asked to run. *)
Lemma not_found_executor_cannot_run_at_demo :
  let absent := mkExecutor "3.10" Demo.env BUILD BinNone None in
  let run := call (H := Demo.host) absent ["--version"] "/tmp/b1" None true Demo.w0 in
  fst run = Raise AttributeError
  /\ new_events Demo.w0 (snd run) = [EvMakedirs "/tmp/b1"]
  /\ class_cmake_cache (snd run) = class_cmake_cache Demo.w0.
Proof.
  intros absent run.
  destruct (not_found_executor_cannot_run (H := Demo.host) absent ["--version"]
              "/tmp/b1" None true Demo.w0 eq_refl) as (_ & _ & Hcall).
  apply Hcall; [vm_compute; reflexivity|by left].
Defined.

(** X5 on the demo machine: a cached triple outlives what follows. *)
Lemma cache_entries_are_never_replaced_at_demo :
  let args := ["-S"; "."] in
  let env := Some [("CC", "gcc")] in
  let w := snd (call (H := Demo.host) DemoRun.exec args "/tmp/b1" env false DemoRun.w1) in
  class_cmake_cache
    (run_ops (H := Demo.host)
       [Call DemoRun.exec args "/tmp/b1" env true;
        CallWithFakeBuild DemoRun.exec args "/tmp/b1" None;
        Construct DemoCross.env "3.4" HOST false;
        Call DemoRun.exec args "/tmp/b1" env false] w)
    !! _cache_key DemoRun.exec args "/tmp/b1" env
  = Some (0, "run 6", "").
Proof.
  intros args env w.
  apply (cache_entries_are_never_replaced (H := Demo.host)).
  vm_compute. reflexivity.
Defined.

(** X6 on the demo machine: no cross file, and the host machine is asked
    for. *)
Lemma cross_role_without_entry_is_absent_at_demo :
  exists w',
    __init__ (H := Demo.host) Demo.env "3.4" HOST false Demo.w0
    = (Ret (mkExecutor "3.4" Demo.env HOST BinNone None), w')
    /\ ConfirmedAbsent w' HOST
    /\ new_events Demo.w0 w' = [EvLookupEntry HOST; EvLog LogFoundNO].
Proof.
  apply (cross_role_without_entry_is_absent (H := Demo.host) Demo.env "3.4" HOST false
           Demo.w0); reflexivity.
Defined.

(** X7 on the demo machine: two more default names change nothing. *)
Lemma later_defaults_are_never_probed_at_demo :
  let self := mkExecutor "3.4" Demo.env BUILD BinNone None in
  let run := find_cmake_binary (H := Demo.host) self Demo.env false Demo.w0 in
  find_cmake_binary (H := Demo.host) self
    (mkEnvironment (lookup_entry Demo.env) (matches_build_machine Demo.env)
                   (default_cmake Demo.env ++ ["cmake3"; "cmake-3.16"]))
    false Demo.w0
  = (Ret (BinProg DemoRun.cmake, Some "3.9.0"), snd run).
Proof.
  intros self run.
  apply (later_defaults_are_never_probed (H := Demo.host) self Demo.env).
  - reflexivity.
  - transitivity (fst run, snd run); [apply surjective_pairing|].
    f_equal; try (vm_compute; reflexivity).
Defined.

(** X8 on the demo machine: a second executor, built from another
    environment for another minimum, hits what the first one cached. *)
Lemma executors_of_a_role_share_the_cache_at_demo :
  let other := mkExecutor "3.9" DemoCross.env BUILD (BinProg DemoRun.cmake)
                          (Some "3.9.0") in
  let first := call (H := Demo.host) DemoRun.exec ["--version"] "/tmp/b1" None false
                    DemoRun.w1 in
  call (H := Demo.host) other ["--version"] "/tmp/b1" None false (snd first)
  = (Ret (0, "run 6", ""), snd first).
Proof.
  intros other first.
  assert (E1 : __init__ (H := Demo.host) Demo.env "3.4" BUILD false Demo.w0
               = (Ret DemoRun.exec, DemoRun.w1)) by (vm_compute; reflexivity).
  assert (E2 : __init__ (H := Demo.host) DemoCross.env "3.9" BUILD true DemoRun.w1
               = (Ret other, DemoRun.w1)) by (vm_compute; reflexivity).
  destruct (executors_of_a_role_share_the_cache (H := Demo.host) _ _ _ _ _ _ _ _ _ _ _ _
              E1 E2 eq_refl eq_refl) as (_ & _ & _ & _ & Hshare).
  apply (Hshare ["--version"] "/tmp/b1" None DemoRun.w1).
  transitivity (fst first, snd first); [apply surjective_pairing|].
  f_equal; try (vm_compute; reflexivity).
Defined.

(** X9 on a machine where the launch fails for another reason. *)
Lemma failed_discovery_is_not_recorded_at_demo :
  let run := find_cmake_binary (H := DemoBroken.host)
               (mkExecutor "3.4" Demo.env BUILD BinNone None) Demo.env false Demo.w0 in
  Unresolved Demo.w0 BUILD /\ Unresolved (snd run) BUILD /\ same_class Demo.w0 (snd run)
  /\ __init__ (H := DemoBroken.host) Demo.env "3.4" BUILD false Demo.w0
     = (Raise (OtherError "Exec format error"), snd run).
Proof.
  intros run.
  apply (failed_discovery_is_not_recorded (H := DemoBroken.host)).
  transitivity (fst run, snd run); [apply surjective_pairing|].
  f_equal; try (vm_compute; reflexivity).
Defined.

(** X10 on the demo machine: a first fake build in a fresh directory. *)
Lemma fake_build_stages_the_directory_at_demo :
  let run := call_with_fake_build (H := Demo.host) DemoRun.exec ["--version"] "/tmp/b2"
                                  None DemoRun.w1 in
  fs (snd run) !! "/tmp/b2/CMakeCache.txt" = Some (File marker_text)
  /\ fs (snd run) !! "/tmp/b2/CMakeFiles/3.9.0/CMakeCCompiler.cmake"
     = Some (File (c_stub (H := Demo.host)))
  /\ fs (snd run) !! "/tmp/b2/CMakeFiles/3.9.0/CMakeCXXCompiler.cmake"
     = Some (File (cxx_stub (H := Demo.host))).
Proof.
  intros run.
  destruct (fake_build_stages_the_directory (H := Demo.host) DemoRun.exec ["--version"]
              "/tmp/b2" None DemoRun.w1 (0, "run 13", "") (snd run))
    as (Hmarker & Hc & Hcxx).
  - intros p c. apply demo_process_keeps.
  - apply lookup_empty.
  - transitivity (fst run, snd run); [apply surjective_pairing|].
    f_equal; try (vm_compute; reflexivity).
  - split; [exact Hmarker|]. split; [apply Hc|apply Hcxx]; vm_compute; reflexivity.
Defined.

(** X11 on the demo machine: the silent search and the verbose one. *)
Lemma silent_holds_back_the_summary_only_at_demo :
  let self := mkExecutor "3.4" Demo.env BUILD BinNone None in
  let verbose := find_cmake_binary (H := Demo.host) self Demo.env false Demo.w0 in
  exists w1 tail,
    find_cmake_binary (H := Demo.host) self Demo.env true Demo.w0
    = (Ret (BinProg DemoRun.cmake, Some "3.9.0"), w1)
    /\ snd verbose = set_trace (trace w1 ++ tail) w1
    /\ exists ev, tail = [ev] /\ is_summary ev.
Proof.
  intros self verbose.
  apply (silent_holds_back_the_summary_only (H := Demo.host) self Demo.env Demo.w0
           (Ret (BinProg DemoRun.cmake, Some "3.9.0")) (snd verbose)).
  - reflexivity.
  - transitivity (fst verbose, snd verbose); [apply surjective_pairing|].
    f_equal; try (vm_compute; reflexivity).
Defined.

(** X12 on the demo machine: a file stands where the build directory
    should be. *)
Lemma build_directory_failure_stops_the_call_at_demo :
  let w := set_fs (<["/tmp/b1" := File "not a directory"]> (fs DemoRun.w1)) DemoRun.w1 in
  let run := call_with_fake_build (H := Demo.host) DemoRun.exec ["--version"] "/tmp/b1"
                                  None w in
  fst run = Raise FileExistsError
  /\ new_events w (snd run) = [EvMakedirs "/tmp/b1"]
  /\ class_cmake_cache (snd run) = class_cmake_cache w.
Proof.
  intros w run.
  apply (proj2 (build_directory_failure_stops_the_call (H := Demo.host) DemoRun.exec
                  ["--version"] "/tmp/b1" None FileExistsError w
                  ltac:(vm_compute; reflexivity))).
  apply lookup_empty.
Defined.

(** X13 on the demo machine: the one launch of a first call. *)
Lemma call_launches_the_command_at_demo :
  let run := call (H := Demo.host) DemoRun.exec ["--version"] "/tmp/b1" None false
                  DemoRun.w1 in
  exists p,
    cmakebin DemoRun.exec = BinProg p
    /\ new_events DemoRun.w1 (snd run)
       = [EvMakedirs "/tmp/b1";
          EvPopen (ExternalProgram.get_command p ++ ["--version"])
                  (Some (os_environ DemoRun.w1)) (Some "/tmp/b1")].
Proof.
  intros run.
  destruct (call_launches_the_command (H := Demo.host) DemoRun.exec ["--version"]
              "/tmp/b1" None false DemoRun.w1 (0, "run 6", "") (snd run))
    as (p & Hp & Hev & _).
  - right. apply lookup_empty.
  - transitivity (fst run, snd run); [apply surjective_pairing|].
    f_equal; try (vm_compute; reflexivity).
  - exists p. split; [exact Hp|exact Hev].
Defined.
